(** * Hierarchic shape functions and hierarchic field projection

    A shallow embedding of [apf/apfHierarchic.cc]: the per-topology
    evaluators of the quadratic "linear + bubble" family, the shape
    registry, the factory [getHierarchic], the [Projector] field
    operation and [projectHierarchicField].

    A C++ [double] is read in two ways.  The evaluators and the nodal
    data are stated over the real numbers (the arithmetic read exactly);
    the evaluators are given a second time in [Binary64], with the
    binary64 numbers and the rounded operations the program computes
    with, over the primitive floats, and so is the bubble constant. *)

From Stdlib Require Import ZArith QArith Qabs Reals Lra Lia List String.
From Stdlib Require Import Floats.
From stdpp Require Import gmap.

(** ** Vectors and arrays *)

(** [apf::Vector3]: three doubles, read by [v[i]]. *)
Record Vector3 : Type := mkVector3 { vx : R; vy : R; vz : R }.

(** [v[i]] for [i] in 0..2; an index past 2 is outside the object in
    C++ and reads as 0 here. *)
Definition vidx (v : Vector3) (i : nat) : R :=
  match i with
  | O => vx v
  | S O => vy v
  | S (S O) => vz v
  | _ => 0%R
  end.

(** [v] with coordinate [i] replaced by [t]. *)
Definition vset (v : Vector3) (i : nat) (t : R) : Vector3 :=
  match i with
  | O => mkVector3 t (vy v) (vz v)
  | S O => mkVector3 (vx v) t (vz v)
  | S (S O) => mkVector3 (vx v) (vy v) t
  | _ => v
  end.

(** [Vector3 * double]: every component times the scalar. *)
Definition vscale (v : Vector3) (s : R) : Vector3 :=
  mkVector3 (vx v * s) (vy v * s) (vz v * s).

Definition vzero : Vector3 := mkVector3 0 0 0.

(** [apf::Matrix3x3]: three rows. *)
Record Matrix3x3 : Type := mkMatrix3x3 { row0 : Vector3; row1 : Vector3; row2 : Vector3 }.

#[global] Instance R_inhabited : Inhabited R := populate 0%R.
#[global] Instance Vector3_inhabited : Inhabited Vector3 := populate vzero.

(** [apf::NewArray<T>]: a heap array with its length.  A default
    constructed array holds nothing. *)
Definition NewArray (T : Type) : Type := list T.

(** [N.allocate(n)] drops what the array held and takes [n] fresh cells.
    C++ leaves the cells of a [double] or [Vector3] array indeterminate:
    [indet] stands for whatever they hold. *)
Definition allocate {T : Type} (indet : T) (n : nat) (_ : NewArray T) : NewArray T :=
  replicate n indet.

Declare Scope vec_scope.
Delimit Scope vec_scope with vec.
Notation "v .[ i ]" := (vidx v i) (at level 1, left associativity, format "v .[ i ]") : vec_scope.
Local Open Scope vec_scope.

(** ** The Hierarchic entity shapes *)

(** In this part every [double] is a real number and every operation
    the exact one: it is the reading for the properties that are about
    the formulas (derivatives, algebraic identities).  What the program
    computes, with every operation rounded to binary64, is in
    [Binary64] below. *)

(** The static constant of line 17, read exactly: the decimal literal as
    a rational number. *)
Definition c : R := (-2.44948974278318)%R.

(** The same constant as the compiler stores it: the binary64 number the
    literal denotes.  Neither literal below is itself a binary64 number;
    each stands for a nearest one ([nearest_double] checks it). *)
#[local] Set Warnings "-inexact-float".
Definition c_double : float := (-2.44948974278318)%float.

(** The literal the specification gives for the constant, as a
    rational and as a binary64 number. *)
Definition c_spec_literal : Q := (-2.449489742783178)%Q.
Definition c_literal : Q := (-2.44948974278318)%Q.
Definition c_spec_double : float := (-2.449489742783178)%float.
#[local] Set Warnings "inexact-float".

(** [apf::EntityShape]: the virtual interface of one topology.  The
    mesh and entity arguments are unnamed and unused in every override of
    this file and are left out; the output array is passed in and
    returned. *)
Record EntityShape : Type := mkEntityShape {
  getValues : Vector3 -> NewArray R -> NewArray R;
  getLocalGradients : Vector3 -> NewArray Vector3 -> NewArray Vector3;
  countNodes : Z
}.

Section Shapes.
Local Open Scope R_scope.

(** What freshly allocated cells hold. *)
Variable indetR : R.
Variable indetV : Vector3.

Definition Vertex_getValues (_ : Vector3) (N : NewArray R) : NewArray R :=
  let N := allocate indetR 1 N in
  let N := <[0%nat := 1.0]> N in
  N.

(** The body is empty: the array is neither allocated nor written. *)
Definition Vertex_getLocalGradients (_ : Vector3) (dN : NewArray Vector3)
  : NewArray Vector3 := dN.

Definition Vertex : EntityShape :=
  mkEntityShape Vertex_getValues Vertex_getLocalGradients 1.

Definition Edge_getValues (xi : Vector3) (N : NewArray R) : NewArray R :=
  let N := allocate indetR 3 N in
  let N := <[0%nat := (1.0 - xi.[0]) / 2.0]> N in
  let N := <[1%nat := (1.0 + xi.[0]) / 2.0]> N in
  let N := <[2%nat := c * (N !!! 0%nat) * (N !!! 1%nat)]> N in
  N.

Definition Edge_getLocalGradients (xi : Vector3) (dN : NewArray Vector3)
  : NewArray Vector3 :=
  let dN := allocate indetV 3 dN in
  let dN := <[0%nat := mkVector3 (-0.5) 0.0 0.0]> dN in
  let dN := <[1%nat := mkVector3 0.5 0.0 0.0]> dN in
  let dN := <[2%nat := mkVector3 (-0.5 * c * xi.[0]) 0.0 0.0]> dN in
  dN.

Definition Edge : EntityShape :=
  mkEntityShape Edge_getValues Edge_getLocalGradients 3.

Definition Triangle_getValues (xi : Vector3) (N : NewArray R) : NewArray R :=
  let N := allocate indetR 6 N in
  let N := <[0%nat := 1.0 - xi.[0] - xi.[1]]> N in
  let N := <[1%nat := xi.[0]]> N in
  let N := <[2%nat := xi.[1]]> N in
  let N := <[3%nat := c * (N !!! 0%nat) * (N !!! 1%nat)]> N in
  let N := <[4%nat := c * (N !!! 1%nat) * (N !!! 2%nat)]> N in
  let N := <[5%nat := c * (N !!! 2%nat) * (N !!! 0%nat)]> N in
  N.

Definition Triangle_getLocalGradients (xi : Vector3) (dN : NewArray Vector3)
  : NewArray Vector3 :=
  let dN := allocate indetV 6 dN in
  let dN := <[0%nat := mkVector3 (-1.0) (-1.0) 0.0]> dN in
  let dN := <[1%nat := mkVector3 1.0 0.0 0.0]> dN in
  let dN := <[2%nat := mkVector3 0.0 1.0 0.0]> dN in
  let dN := <[3%nat := vscale (mkVector3 (1.0 - 2.0 * xi.[0] - xi.[1]) (- xi.[0]) 0.0) c]> dN in
  let dN := <[4%nat := vscale (mkVector3 xi.[1] xi.[0] 0.0) c]> dN in
  let dN := <[5%nat := vscale (mkVector3 (- xi.[1]) (1.0 - xi.[0] - 2.0 * xi.[1]) 0.0) c]> dN in
  dN.

Definition Triangle : EntityShape :=
  mkEntityShape Triangle_getValues Triangle_getLocalGradients 6.

Definition Tetrahedron_getValues (xi : Vector3) (N : NewArray R) : NewArray R :=
  let N := allocate indetR 10 N in
  let N := <[0%nat := 1.0 - xi.[0] - xi.[1] - xi.[2]]> N in
  let N := <[1%nat := xi.[0]]> N in
  let N := <[2%nat := xi.[1]]> N in
  let N := <[3%nat := xi.[2]]> N in
  let N := <[4%nat := c * (N !!! 0%nat) * (N !!! 1%nat)]> N in
  let N := <[5%nat := c * (N !!! 1%nat) * (N !!! 2%nat)]> N in
  let N := <[6%nat := c * (N !!! 2%nat) * (N !!! 0%nat)]> N in
  let N := <[7%nat := c * (N !!! 0%nat) * (N !!! 3%nat)]> N in
  let N := <[8%nat := c * (N !!! 1%nat) * (N !!! 3%nat)]> N in
  let N := <[9%nat := c * (N !!! 2%nat) * (N !!! 3%nat)]> N in
  N.

Definition Tetrahedron_getLocalGradients (xi : Vector3) (dN : NewArray Vector3)
  : NewArray Vector3 :=
  let dN := allocate indetV 10 dN in
  let dN := <[0%nat := mkVector3 (-1.0) (-1.0) (-1.0)]> dN in
  let dN := <[1%nat := mkVector3 1.0 0.0 0.0]> dN in
  let dN := <[2%nat := mkVector3 0.0 1.0 0.0]> dN in
  let dN := <[3%nat := mkVector3 0.0 0.0 1.0]> dN in
  let dN := <[4%nat := vscale (mkVector3 (1.0 - 2.0 * xi.[0] - xi.[1] - xi.[2]) (- xi.[0]) (- xi.[0])) c]> dN in
  let dN := <[5%nat := vscale (mkVector3 xi.[1] xi.[0] 0.0) c]> dN in
  let dN := <[6%nat := vscale (mkVector3 (- xi.[1]) (1.0 - xi.[0] - 2.0 * xi.[1] - xi.[2]) (- xi.[1])) c]> dN in
  let dN := <[7%nat := vscale (mkVector3 (- xi.[2]) (- xi.[2]) (1.0 - xi.[0] - xi.[1] - 2.0 * xi.[2])) c]> dN in
  let dN := <[8%nat := vscale (mkVector3 xi.[2] 0.0 xi.[0]) c]> dN in
  let dN := <[9%nat := vscale (mkVector3 0.0 xi.[2] xi.[1]) c]> dN in
  dN.

Definition Tetrahedron : EntityShape :=
  mkEntityShape Tetrahedron_getValues Tetrahedron_getLocalGradients 10.

(** The static table of [getEntityShape], in the order of the entity
    types its comments name; [None] is a NULL entry. *)
Definition shapes : list (option EntityShape) :=
  [ Some Vertex;       (* vertex *)
    Some Edge;         (* edge *)
    Some Triangle;     (* triangle *)
    None;              (* quad *)
    Some Tetrahedron;  (* tet *)
    None;              (* hex *)
    None;              (* prism *)
    None ].            (* pyramid *)

(** [shapes[type]].  The outer [None] is a read outside the table,
    which C++ leaves undefined. *)
Definition getEntityShape (type : Z) : option (option EntityShape) :=
  if (0 <=? type)%Z then shapes !! Z.to_nat type else None.

End Shapes.

(** ** The Hierarchic field shape *)

(** [Mesh::Type], an enumeration of apfMesh.h.  The values are those the
    table of [getEntityShape] is indexed by, in the order of its
    comments. *)
Definition VERTEX : Z := 0.
Definition EDGE : Z := 1.
Definition TRIANGLE : Z := 2.
Definition QUAD : Z := 3.
Definition TET : Z := 4.
Definition HEX : Z := 5.
Definition PRISM : Z := 6.
Definition PYRAMID : Z := 7.
Definition TYPES : Z := 8.

(** [apf::FieldShape]: the virtual interface of a shape family.
    [getNodeXi] receives the caller's [xi] and returns what it holds
    afterwards. *)
Record FieldShape : Type := mkFieldShape {
  fs_getName : string;
  fs_getEntityShape : Z -> option (option EntityShape);
  fs_getNodeXi : Z -> Z -> Vector3 -> Vector3;
  fs_hasNodesIn : Z -> bool;
  fs_countNodesOn : Z -> Z;
  fs_getOrder : Z
}.

Definition Hierarchic_getNodeXi (_ _ : Z) (_ : Vector3) : Vector3 :=
  mkVector3 0 0 0.

Definition Hierarchic_hasNodesIn (dimension : Z) : bool :=
  if (dimension =? 0)%Z || (dimension =? 1)%Z then true else false.

Definition Hierarchic_countNodesOn (type : Z) : Z :=
  if (type =? VERTEX)%Z || (type =? EDGE)%Z then 1%Z else 0%Z.

Definition Hierarchic_getOrder : Z := 2.

Definition Hierarchic (indetR : R) (indetV : Vector3) : FieldShape :=
  mkFieldShape "Hierarchic" (getEntityShape indetR indetV) Hierarchic_getNodeXi
    Hierarchic_hasNodesIn Hierarchic_countNodesOn Hierarchic_getOrder.

(** ** The factory *)

(** What a pointer to a [FieldShape] can point at: nothing, the function-local
    static [q] of [getHierarchic], or an object of another translation
    unit, known by its address only. *)
Inductive FieldShapePtr : Type :=
  | NULL
  | addr_q
  | addr_external (a : Z).

(** The static storage of [getHierarchic]: whether [q] has been
    constructed. *)
Record Statics : Type := mkStatics { q_constructed : bool }.

Section Factory.
(** [apf::getLagrange], defined in apfShape.cc. *)
Variable getLagrange : Z -> FieldShapePtr.

(** [static Hierarchic q;] is constructed when control first passes
    its declaration, that is on the first call, whatever [o] is. *)
Definition getHierarchic (o : Z) (st : Statics) : FieldShapePtr * Statics :=
  let st := mkStatics true in
  if (o =? 1)%Z then (getLagrange o, st)
  else if (o =? 2)%Z then (addr_q, st)
  else (NULL, st).
End Factory.

(** ** Meshes, fields and nodal data *)

(** A pointer to a [MeshEntity]: an opaque handle. *)
Definition MeshEntity : Type := Z.

(** [apf::Mesh], as far as this file consults it: the type of an
    entity. *)
Record Mesh : Type := mkMesh { m_getType : MeshEntity -> Z }.

(** [apf::ValueType], an enumeration of apf.h. *)
Definition SCALAR : Z := 0.
Definition VECTOR : Z := 1.
Definition MATRIX : Z := 2.
Definition PACKED : Z := 3.

(** A field object, found through a pointer: [f_id] is its identity
    (two pointers alias when the ids agree), the rest is what
    [getMesh], [getShape], [getValueType] and [countComponents]
    answer. *)
Record Field : Type := mkField {
  f_id : nat;
  getMesh : Mesh;
  getShape : FieldShape;
  getValueType : Z;
  countComponents : Z
}.

(** Modelled from the spec: [Field::countNodesOn] of
    apfField.cc, the shape's node count on the entity's topology
    ([nodeCountOn(topology(e))]). *)
Definition countNodesOn (f : Field) (e : MeshEntity) : Z :=
  fs_countNodesOn (getShape f) (m_getType (getMesh f) e).

(** The nodal values of every field: the components stored at a
    (field, entity, local node) slot. *)
Definition NodeData : Type := gmap (nat * MeshEntity * Z) (list R).

(** Modelled from the spec: [apf::setComponents] of apf.cc, which
    stores the field's [countComponents] doubles found at [components]
    as the value of node [node] of [e]. *)
Definition setComponents (f : Field) (e : MeshEntity) (node : Z)
    (components : list R) (W : NodeData) : NodeData :=
  <[(f_id f, e, node) := take (Z.to_nat (countComponents f)) components]> W.

(** The value kinds a [FieldOf<T>] is instantiated at: the doubles a
    value of [T] is made of, and the zero-initialized value, whose
    doubles are all 0. *)
Class ValueKind (T : Type) : Type := mkValueKind {
  components : T -> list R;
  zero_value : T;
  zero_value_components :
    components zero_value = replicate (length (components zero_value)) 0%R
}.

#[global] Instance double_kind : ValueKind R :=
  mkValueKind R (fun x => [x]) 0%R eq_refl.
#[global] Instance Vector3_kind : ValueKind Vector3 :=
  mkValueKind Vector3 (fun v => [vx v; vy v; vz v]) vzero eq_refl.
#[global] Instance Matrix3x3_kind : ValueKind Matrix3x3 :=
  mkValueKind Matrix3x3
    (fun m => [vx (row0 m); vy (row0 m); vz (row0 m);
               vx (row1 m); vy (row1 m); vz (row1 m);
               vx (row2 m); vy (row2 m); vz (row2 m)])
    (mkMatrix3x3 vzero vzero vzero) eq_refl.

(** Modelled from the spec: [FieldOf<T>::setNodeValue] of apfFieldOf.h,
    which stores one value of kind [T] at node [node] of [e]. *)
Definition setNodeValue {T : Type} `{ValueKind T} (f : Field) (e : MeshEntity)
    (node : Z) (value : T) (W : NodeData) : NodeData :=
  <[(f_id f, e, node) := components value]> W.

(** Modelled from the spec: the geometric mapping element that
    [createMeshElement(mesh, e)] builds for [e]; [getEntity] answers
    the entity it was built for. *)
Record VectorElement : Type := mkVectorElement { ve_getEntity : MeshEntity }.

Definition createMeshElement (m : Mesh) (e : MeshEntity) : VectorElement :=
  mkVectorElement e.

(** [apf::ElementOf<T>]: a source-field element as the object it is, by
    what its methods answer.  [getValue] may consult the nodal data. *)
Record ElementOf (T : Type) : Type := mkElementOf {
  el_getEntity : MeshEntity;
  el_getType : Z;
  el_getValue : NodeData -> Vector3 -> T
}.
Arguments el_getEntity {T} _.
Arguments el_getType {T} _.
Arguments el_getValue {T} _ _ _.

(** A pointer member that is null, points at a live object, or was
    left dangling by a destroy. *)
Inductive ptr (A : Type) : Type :=
  | Null
  | Live (a : A)
  | Freed.
Arguments Null {A}.
Arguments Live {A} a.
Arguments Freed {A}.

(** ** The projector *)

(** The members of [Projector<T>]. *)
Record Projector (T : Type) : Type := mkProjector {
  to : Field;
  from : Field;
  mesh : Mesh;
  meshElem : ptr VectorElement;
  fromElem : ptr (ElementOf T);
  data : NewArray R
}.
Arguments to {T} _.
Arguments from {T} _.
Arguments mesh {T} _.
Arguments meshElem {T} _.
Arguments fromElem {T} _.
Arguments data {T} _.

(** The operations the traversal calls on a field operation. *)
Inductive Op : Type :=
  | InEntity (e : MeshEntity)
  | AtNode (n : Z)
  | OutEntity.

Section ProjectorOf.
Local Open Scope R_scope.
Context {T : Type} `{ValueKind T}.

(** What freshly allocated or default constructed storage holds. *)
Variable indetR : R.
Variable indetV : Vector3.

(** [apf::createElement] of apf.cc, cast to
    [ElementOf<T>*]: the source element the framework builds. *)
Variable createElement : NodeData -> Field -> VectorElement -> ElementOf T.

(** [for (int i=0; i < n; ++i) data[i] = 0.0;] *)
Definition zero_loop (n : nat) (data : NewArray R) : NewArray R :=
  foldl (fun data i => <[i := 0.0]> data) data (seq 0 n).

Definition Projector_ctor (a b : Field) : Projector T :=
  let to := a in
  let from := b in
  let mesh := getMesh to in
  let n := countComponents to in
  let data := allocate indetR (Z.to_nat n) [] in
  let data := zero_loop (Z.to_nat n) data in
  mkProjector T to from mesh Null Null data.

Definition inEntity (e : MeshEntity) (P : Projector T) (W : NodeData)
  : bool * Projector T :=
  let meshElem := createMeshElement (mesh P) e in
  let fromElem := createElement W (from P) meshElem in
  (true, mkProjector T (to P) (from P) (mesh P) (Live meshElem) (Live fromElem) (data P)).

(** [None] is a call that dereferences a null or dangling element
    pointer.  The two counts are nonnegative [int]s, so [nf - nt]
    does not overflow and is the integer difference. *)
Definition atNode (n : Z) (P : Projector T) (W : NodeData) : option NodeData :=
  match meshElem P, fromElem P with
  | Live me, Live fe =>
      let nt := countNodesOn (to P) (ve_getEntity me) in
      let nf := countNodesOn (from P) (ve_getEntity me) in
      if (nf =? 0)%Z || (nf - nt <? 0)%Z then
        Some (setComponents (to P) (ve_getEntity me) n (data P) W)
      else
        let xi := indetV in
        let xi := fs_getNodeXi (getShape (to P)) (el_getType fe) n xi in
        let value := el_getValue fe W xi in
        Some (setNodeValue (to P) (el_getEntity fe) n value W)
  | _, _ => None
  end.

(** Modelled from the spec: [destroyMeshElement] and [destroyElement]
    of apf.cc, which release the element built for the entity being
    left.  The member keeps its value and is left dangling.  Only the
    release of a live element is described; for a null or dangling
    pointer the model says nothing ([None]). *)
Definition destroy {A : Type} (p : ptr A) : option (ptr A) :=
  match p with
  | Live _ => Some Freed
  | Null | Freed => None
  end.

(** [None] is a call with no live element to release. *)
Definition outEntity (P : Projector T) : option (Projector T) :=
  match destroy (meshElem P), destroy (fromElem P) with
  | Some m, Some f => Some (mkProjector T (to P) (from P) (mesh P) m f (data P))
  | _, _ => None
  end.

(** One call on the projector, on the state made of the object and
    the nodal data. *)
Definition step (op : Op) (s : Projector T * NodeData) : option (Projector T * NodeData) :=
  match op with
  | InEntity e => Some (snd (inEntity e (fst s) (snd s)), snd s)
  | AtNode n => W ← atNode n (fst s) (snd s); Some (fst s, W)
  | OutEntity => P ← outEntity (fst s); Some (P, snd s)
  end.

Fixpoint steps (ops : list Op) (s : Projector T * NodeData) : option (Projector T * NodeData) :=
  match ops with
  | [] => Some s
  | op :: ops => s' ← step op s; steps ops s'
  end.

(** Modelled from the spec: [FieldOp::apply] of apfFieldOp.cc, the
    traversal driver.  Once per entity [e], in the order the driver
    supplies: enter the entity, call [atNode] for every destination
    node index in [[0, nodeCountOn(topology(e)))], leave the entity. *)
Definition visit (f : Field) (e : MeshEntity) : list Op :=
  InEntity e :: map (fun n => AtNode (Z.of_nat n)) (seq 0 (Z.to_nat (countNodesOn f e)))
    ++ [OutEntity].

Definition apply (order : list MeshEntity) (f : Field) (s : Projector T * NodeData)
  : option (Projector T * NodeData) :=
  steps (concat (map (visit f) order)) s.

(** [run()]: [apply(to)]. *)
Definition run (order : list MeshEntity) (s : Projector T * NodeData)
  : option (Projector T * NodeData) :=
  apply order (to (fst s)) s.

End ProjectorOf.

(** ** projectHierarchicField *)

(** How a call ends, with the nodal data it leaves: it returns, the
    [assert] aborts, [fail] aborts, or the behaviour is undefined. *)
Inductive Outcome : Type :=
  | Returned (W : NodeData)
  | AssertionFailed (W : NodeData)
  | Failed (why : string) (W : NodeData)
  | Undefined.

Section Project.
Variable indetR : R.
Variable indetV : Vector3.
Variable createElementS : NodeData -> Field -> VectorElement -> ElementOf R.
Variable createElementV : NodeData -> Field -> VectorElement -> ElementOf Vector3.
Variable createElementM : NodeData -> Field -> VectorElement -> ElementOf Matrix3x3.

(** The order in which the traversal driver visits the entities of a
    field's mesh. *)
Variable traversal : Field -> list MeshEntity.

Definition finish {T : Type} (r : option (Projector T * NodeData)) : Outcome :=
  match r with
  | Some s => Returned (snd s)
  | None => Undefined
  end.

(** [assert] is the macro of <cassert>; the file does not define
    NDEBUG, so a false condition aborts. *)
Definition projectHierarchicField (to from : Field) (W : NodeData) : Outcome :=
  let ttype := getValueType to in
  let ftype := getValueType from in
  if negb (ttype =? ftype)%Z then AssertionFailed W
  else if (ttype =? SCALAR)%Z then
    let projector := Projector_ctor (T := R) indetR to from in
    finish (run indetV createElementS (traversal to) (projector, W))
  else if (ttype =? VECTOR)%Z then
    let projector := Projector_ctor (T := Vector3) indetR to from in
    finish (run indetV createElementV (traversal to) (projector, W))
  else if (ttype =? MATRIX)%Z then
    let projector := Projector_ctor (T := Matrix3x3) indetR to from in
    finish (run indetV createElementM (traversal to) (projector, W))
  else Failed "projectHierarchicField: unsupported value type" W.

End Project.

(** ** Notions the properties are stated with *)

Section Notions.
Local Open Scope R_scope.

(** [l] is the partial derivative of [f] at [xi] along reference
    coordinate [i]: the derivative of [f] on the line through [xi]
    along which only coordinate [i] varies. *)
Definition partial_at (f : Vector3 -> R) (i : nat) (xi : Vector3) (l : R) : Prop :=
  derivable_pt_lim (fun t => f (vset xi i t)) (xi.[i]) l.

(** [g] is the gradient of [f] at [xi] with respect to the three
    reference coordinates. *)
Definition gradient_at (f : Vector3 -> R) (xi : Vector3) (g : Vector3) : Prop :=
  forall i : nat, (i < 3)%nat -> partial_at f i xi (g.[i]).

Definition sum (l : list R) : R := foldr Rplus 0 l.

(** How many leading entries of the value basis of an entity type are
    its vertex entries, the ones [getValues] assigns without the
    factor [c]. *)
Definition vertex_entries (type : Z) : nat :=
  if (type =? VERTEX)%Z then 1
  else if (type =? EDGE)%Z then 2
  else if (type =? TRIANGLE)%Z then 3
  else if (type =? TET)%Z then 4
  else 0.

(** The bubble entries of an entity type: [(k, (i, j))] when
    [getValues] assigns [N[k] = c*N[i]*N[j]]. *)
Definition bubbles (type : Z) : list (nat * (nat * nat)) :=
  if (type =? EDGE)%Z then [(2, (0, 1))]%nat
  else if (type =? TRIANGLE)%Z then [(3, (0, 1)); (4, (1, 2)); (5, (2, 0))]%nat
  else if (type =? TET)%Z then
    [(4, (0, 1)); (5, (1, 2)); (6, (2, 0)); (7, (0, 3)); (8, (1, 3)); (9, (2, 3))]%nat
  else [].

(** The vertices of the reference domain of an entity type, the
    domains being those the specification tabulates: the ends -1 and 1
    of the edge, the corners of the unit triangle and of the unit
    tetrahedron.  Coordinates an entity type does not read are free. *)
Definition reference_vertex (type : Z) (xi : Vector3) : Prop :=
  if (type =? EDGE)%Z then xi.[0] = -1 \/ xi.[0] = 1
  else if (type =? TRIANGLE)%Z then
    (xi.[0] = 0 /\ xi.[1] = 0) \/ (xi.[0] = 1 /\ xi.[1] = 0) \/ (xi.[0] = 0 /\ xi.[1] = 1)
  else if (type =? TET)%Z then
    (xi.[0] = 0 /\ xi.[1] = 0 /\ xi.[2] = 0) \/ (xi.[0] = 1 /\ xi.[1] = 0 /\ xi.[2] = 0) \/
    (xi.[0] = 0 /\ xi.[1] = 1 /\ xi.[2] = 0) \/ (xi.[0] = 0 /\ xi.[1] = 0 /\ xi.[2] = 1)
  else False.

(** The interior of the reference domain of an entity type: the open
    interval, the open unit triangle, the open unit tetrahedron; the
    vertex's domain is a point. *)
Definition interior (type : Z) (xi : Vector3) : Prop :=
  if (type =? VERTEX)%Z then True
  else if (type =? EDGE)%Z then -1 < xi.[0] < 1
  else if (type =? TRIANGLE)%Z then 0 < xi.[0] /\ 0 < xi.[1] /\ xi.[0] + xi.[1] < 1
  else if (type =? TET)%Z then
    0 < xi.[0] /\ 0 < xi.[1] /\ 0 < xi.[2] /\ xi.[0] + xi.[1] + xi.[2] < 1
  else False.

(** The entity types the family has a shape for. *)
Definition supported (type : Z) : Prop :=
  type = VERTEX \/ type = EDGE \/ type = TRIANGLE \/ type = TET.

End Notions.

(** ** Binary64 numbers and decimal literals *)

(** The rational a finite binary64 number stands for. *)
Definition SF2Q (f : spec_float) : Q :=
  match f with
  | S754_finite s m e =>
      (if s then -1 else 1) * inject_Z (Z.pos m) * (2 ^ e)
  | _ => 0
  end%Q.

(** [d] is a normal binary64 number (53 significant bits) within half a
    unit in the last place of the rational [q]: a nearest double. *)
Definition nearest_double (q : Q) (d : float) : bool :=
  match Prim2SF d with
  | S754_finite s m e =>
      (2 ^ 52 <=? Z.pos m)%Z && (Z.pos m <? 2 ^ 53)%Z &&
      Qle_bool (Qabs (q - SF2Q (S754_finite s m e))) ((2 ^ e) / 2)%Q
  | _ => false
  end.

(** How many binary64 numbers lie from [a] up to [b], for two numbers of
    the same sign and exponent: the distance in units in the last
    place. *)
Definition ulps_apart (a b : float) : option Z :=
  match Prim2SF a, Prim2SF b with
  | S754_finite sa ma ea, S754_finite sb mb eb =>
      if Bool.eqb sa sb && (ea =? eb)%Z then Some (Z.abs (Z.pos ma - Z.pos mb)) else None
  | _, _ => None
  end.

(** The call ended in one of its two aborts. *)
Definition signals_error (r : Outcome) : Prop :=
  match r with
  | AssertionFailed _ | Failed _ _ => True
  | Returned _ | Undefined => False
  end.

(** The nodal data a call left behind. *)
Definition data_left (r : Outcome) : option NodeData :=
  match r with
  | Returned W | AssertionFailed W | Failed _ W => Some W
  | Undefined => None
  end.

(** The value kinds [projectHierarchicField] has a projector for. *)
Definition supported_kind (t : Z) : Prop :=
  t = SCALAR \/ t = VECTOR \/ t = MATRIX.

(** ** Sample inputs *)

Module Sample.

(** A mesh in which entities 0..9 are vertices and all others edges. *)
Definition mesh : Mesh :=
  mkMesh (fun e => if (0 <=? e)%Z && (e <? 10)%Z then VERTEX else EDGE).

(** A first-order shape: one node on a vertex, none elsewhere. *)
Definition linear : FieldShape :=
  mkFieldShape "Linear" (fun _ => None) (fun _ _ xi => xi)
    (fun d => (d =? 0)%Z) (fun t => if (t =? VERTEX)%Z then 1%Z else 0%Z) 1.

(** A scalar hierarchic destination and a scalar linear source. *)
Definition dest : Field := mkField 0 mesh (Hierarchic 0 vzero) SCALAR 1.
Definition source : Field := mkField 1 mesh linear SCALAR 1.

(** A vector destination, of another kind than [source]. *)
Definition dest_vector : Field := mkField 2 mesh (Hierarchic 0 vzero) VECTOR 3.

(** A framework whose source elements answer the constant 7 and
    report the entity 100 places after the one they were built on. *)
Definition shifted (_ : NodeData) (_ : Field) (m : VectorElement) : ElementOf R :=
  mkElementOf R (ve_getEntity m + 100)%Z (m_getType mesh (ve_getEntity m))
    (fun _ _ => 7%R).

Definition constantV (_ : NodeData) (_ : Field) (m : VectorElement) : ElementOf Vector3 :=
  mkElementOf Vector3 (ve_getEntity m) (m_getType mesh (ve_getEntity m))
    (fun _ _ => vzero).

Definition constantM (_ : NodeData) (_ : Field) (m : VectorElement) : ElementOf Matrix3x3 :=
  mkElementOf Matrix3x3 (ve_getEntity m) (m_getType mesh (ve_getEntity m))
    (fun _ _ => mkMatrix3x3 vzero vzero vzero).

(** The projector of [source] onto [dest] just after it entered the
    edge 20, and just after it entered the vertex 3. *)
Definition inside_edge : Projector R :=
  snd (inEntity shifted 20%Z (Projector_ctor 0 dest source) ∅).
Definition inside_vertex : Projector R :=
  snd (inEntity shifted 3%Z (Projector_ctor 0 dest source) ∅).

End Sample.

(** ** Notions the further properties are stated with *)

Section FurtherNotions.
Local Open Scope R_scope.



(** The vertices of the reference domain of an entity type, in the
    order of the vertex entries of its value basis. *)
Definition reference_vertices (type : Z) : list Vector3 :=
  if (type =? VERTEX)%Z then [vzero]
  else if (type =? EDGE)%Z then [mkVector3 (-1) 0 0; mkVector3 1 0 0]
  else if (type =? TRIANGLE)%Z then [vzero; mkVector3 1 0 0; mkVector3 0 1 0]
  else if (type =? TET)%Z then
    [vzero; mkVector3 1 0 0; mkVector3 0 1 0; mkVector3 0 0 1]
  else [].

(** The entries of [l] at the indices [ks], in that order. *)
Definition pick (l : list R) (ks : list nat) : list R :=
  map (fun k => l !!! k) ks.

End FurtherNotions.

(** A framework whose source elements answer the constant 7 and report
    the entity they were built on. *)
Definition plain_elements (_ : NodeData) (_ : Field) (m : VectorElement) : ElementOf R :=
  mkElementOf R (ve_getEntity m) (m_getType Sample.mesh (ve_getEntity m))
    (fun _ _ => 7%R).

(** The members of a projector of [b] onto [a] are as the constructor
    set them. *)
Definition ready {T : Type} (a b : Field) (P : Projector T) : Prop :=
  to P = a /\ from P = b /\ data P = replicate (Z.to_nat (countComponents a)) 0%R.

(** The topological dimension of an entity type: 0 for the vertex, 1
    for the edge, 2 for triangle and quadrilateral, 3 for the four
    region types. *)
Definition type_dimension (type : Z) : Z :=
  if (type =? VERTEX)%Z then 0
  else if (type =? EDGE)%Z then 1
  else if (type =? TRIANGLE)%Z || (type =? QUAD)%Z then 2
  else 3.

(** ** The entity shapes in binary64 arithmetic *)

(** The evaluators once more, line by line, with every [double] a
    binary64 number and every operation the correctly rounded one of the
    kernel's primitive floats.  The definitions above read the same
    lines with exact real arithmetic. *)
Module Binary64.

(** [apf::Vector3] with binary64 components. *)
Record Vector3 : Type := mkVector3 { vx : float; vy : float; vz : float }.

(** [v[i]] for [i] in 0..2; an index past 2 is outside the object in
    C++ and reads as 0 here. *)
Definition vidx (v : Vector3) (i : nat) : float :=
  match i with
  | O => vx v
  | S O => vy v
  | S (S O) => vz v
  | _ => 0%float
  end.

(** [Vector3 * double]: every component times the scalar. *)
Definition vscale (v : Vector3) (s : float) : Vector3 :=
  mkVector3 (vx v * s) (vy v * s) (vz v * s)%float.

#[global] Instance float_inhabited : Inhabited float := populate 0%float.
#[global] Instance Vector3_inhabited : Inhabited Vector3 :=
  populate (mkVector3 0 0 0).

Record EntityShape : Type := mkEntityShape {
  getValues : Vector3 -> NewArray float -> NewArray float;
  getLocalGradients : Vector3 -> NewArray Vector3 -> NewArray Vector3;
  countNodes : Z
}.

Section Shapes.
Local Open Scope float_scope.
Local Notation "v .[ i ]" := (vidx v i) (at level 1, left associativity, format "v .[ i ]").
Local Abbreviation c := c_double.

(** What freshly allocated cells hold. *)
Variable indetF : float.
Variable indetV : Vector3.

Definition Vertex_getValues (_ : Vector3) (N : NewArray float) : NewArray float :=
  let N := allocate indetF 1 N in
  let N := <[0%nat := 1.0]> N in
  N.

Definition Vertex_getLocalGradients (_ : Vector3) (dN : NewArray Vector3)
  : NewArray Vector3 := dN.

Definition Vertex : EntityShape :=
  mkEntityShape Vertex_getValues Vertex_getLocalGradients 1.

Definition Edge_getValues (xi : Vector3) (N : NewArray float) : NewArray float :=
  let N := allocate indetF 3 N in
  let N := <[0%nat := (1.0 - xi.[0]) / 2.0]> N in
  let N := <[1%nat := (1.0 + xi.[0]) / 2.0]> N in
  let N := <[2%nat := c * (N !!! 0%nat) * (N !!! 1%nat)]> N in
  N.

Definition Edge_getLocalGradients (xi : Vector3) (dN : NewArray Vector3)
  : NewArray Vector3 :=
  let dN := allocate indetV 3 dN in
  let dN := <[0%nat := mkVector3 (-0.5) 0.0 0.0]> dN in
  let dN := <[1%nat := mkVector3 0.5 0.0 0.0]> dN in
  let dN := <[2%nat := mkVector3 (-0.5 * c * xi.[0]) 0.0 0.0]> dN in
  dN.

Definition Edge : EntityShape :=
  mkEntityShape Edge_getValues Edge_getLocalGradients 3.

Definition Triangle_getValues (xi : Vector3) (N : NewArray float) : NewArray float :=
  let N := allocate indetF 6 N in
  let N := <[0%nat := 1.0 - xi.[0] - xi.[1]]> N in
  let N := <[1%nat := xi.[0]]> N in
  let N := <[2%nat := xi.[1]]> N in
  let N := <[3%nat := c * (N !!! 0%nat) * (N !!! 1%nat)]> N in
  let N := <[4%nat := c * (N !!! 1%nat) * (N !!! 2%nat)]> N in
  let N := <[5%nat := c * (N !!! 2%nat) * (N !!! 0%nat)]> N in
  N.

Definition Triangle_getLocalGradients (xi : Vector3) (dN : NewArray Vector3)
  : NewArray Vector3 :=
  let dN := allocate indetV 6 dN in
  let dN := <[0%nat := mkVector3 (-1.0) (-1.0) 0.0]> dN in
  let dN := <[1%nat := mkVector3 1.0 0.0 0.0]> dN in
  let dN := <[2%nat := mkVector3 0.0 1.0 0.0]> dN in
  let dN := <[3%nat := vscale (mkVector3 (1.0 - 2.0 * xi.[0] - xi.[1]) (- xi.[0]) 0.0) c]> dN in
  let dN := <[4%nat := vscale (mkVector3 xi.[1] xi.[0] 0.0) c]> dN in
  let dN := <[5%nat := vscale (mkVector3 (- xi.[1]) (1.0 - xi.[0] - 2.0 * xi.[1]) 0.0) c]> dN in
  dN.

Definition Triangle : EntityShape :=
  mkEntityShape Triangle_getValues Triangle_getLocalGradients 6.

Definition Tetrahedron_getValues (xi : Vector3) (N : NewArray float) : NewArray float :=
  let N := allocate indetF 10 N in
  let N := <[0%nat := 1.0 - xi.[0] - xi.[1] - xi.[2]]> N in
  let N := <[1%nat := xi.[0]]> N in
  let N := <[2%nat := xi.[1]]> N in
  let N := <[3%nat := xi.[2]]> N in
  let N := <[4%nat := c * (N !!! 0%nat) * (N !!! 1%nat)]> N in
  let N := <[5%nat := c * (N !!! 1%nat) * (N !!! 2%nat)]> N in
  let N := <[6%nat := c * (N !!! 2%nat) * (N !!! 0%nat)]> N in
  let N := <[7%nat := c * (N !!! 0%nat) * (N !!! 3%nat)]> N in
  let N := <[8%nat := c * (N !!! 1%nat) * (N !!! 3%nat)]> N in
  let N := <[9%nat := c * (N !!! 2%nat) * (N !!! 3%nat)]> N in
  N.

Definition Tetrahedron_getLocalGradients (xi : Vector3) (dN : NewArray Vector3)
  : NewArray Vector3 :=
  let dN := allocate indetV 10 dN in
  let dN := <[0%nat := mkVector3 (-1.0) (-1.0) (-1.0)]> dN in
  let dN := <[1%nat := mkVector3 1.0 0.0 0.0]> dN in
  let dN := <[2%nat := mkVector3 0.0 1.0 0.0]> dN in
  let dN := <[3%nat := mkVector3 0.0 0.0 1.0]> dN in
  let dN := <[4%nat := vscale (mkVector3 (1.0 - 2.0 * xi.[0] - xi.[1] - xi.[2]) (- xi.[0]) (- xi.[0])) c]> dN in
  let dN := <[5%nat := vscale (mkVector3 xi.[1] xi.[0] 0.0) c]> dN in
  let dN := <[6%nat := vscale (mkVector3 (- xi.[1]) (1.0 - xi.[0] - 2.0 * xi.[1] - xi.[2]) (- xi.[1])) c]> dN in
  let dN := <[7%nat := vscale (mkVector3 (- xi.[2]) (- xi.[2]) (1.0 - xi.[0] - xi.[1] - 2.0 * xi.[2])) c]> dN in
  let dN := <[8%nat := vscale (mkVector3 xi.[2] 0.0 xi.[0]) c]> dN in
  let dN := <[9%nat := vscale (mkVector3 0.0 xi.[2] xi.[1]) c]> dN in
  dN.

Definition Tetrahedron : EntityShape :=
  mkEntityShape Tetrahedron_getValues Tetrahedron_getLocalGradients 10.

(** The static table of [getEntityShape]; [None] is a NULL entry. *)
Definition shapes : list (option EntityShape) :=
  [ Some Vertex;       (* vertex *)
    Some Edge;         (* edge *)
    Some Triangle;     (* triangle *)
    None;              (* quad *)
    Some Tetrahedron;  (* tet *)
    None;              (* hex *)
    None;              (* prism *)
    None ].            (* pyramid *)

(** [shapes[type]]; the outer [None] is a read outside the table. *)
Definition getEntityShape (type : Z) : option (option EntityShape) :=
  if (0 <=? type)%Z then shapes !! Z.to_nat type else None.

End Shapes.



(** The vertices of the reference domain of an entity type, as
    [reference_vertex] gives them, at binary64 coordinates. *)
Definition reference_vertex (type : Z) (xi : Vector3) : Prop :=
  if (type =? EDGE)%Z then vx xi = (-1)%float \/ vx xi = 1%float
  else if (type =? TRIANGLE)%Z then
    (vx xi = 0 /\ vy xi = 0)%float \/ (vx xi = 1 /\ vy xi = 0)%float \/
    (vx xi = 0 /\ vy xi = 1)%float
  else if (type =? TET)%Z then
    (vx xi = 0 /\ vy xi = 0 /\ vz xi = 0)%float \/
    (vx xi = 1 /\ vy xi = 0 /\ vz xi = 0)%float \/
    (vx xi = 0 /\ vy xi = 1 /\ vz xi = 0)%float \/
    (vx xi = 0 /\ vy xi = 0 /\ vz xi = 1)%float
  else False.

(** The sum of binary64 numbers, taken exactly, as a rational. *)
Definition exact_sum (l : list float) : Q :=
  foldr (fun x q => (SF2Q (Prim2SF x) + q)%Q) 0%Q l.

(** The sum of binary64 numbers as a C++ loop would accumulate it, from
    the left, every addition rounded. *)
Definition rounded_sum (l : list float) : float :=
  foldl (fun acc x => (acc + x)%float) 0%float l.

#[local] Set Warnings "-inexact-float".
(** The point (0.3, 0.4) of the open reference triangle, at the doubles
    nearest to 0.3 and 0.4. *)
Definition interior_point : Vector3 := mkVector3 0.3 0.4 0.
#[local] Set Warnings "inexact-float".

End Binary64.

(** * Properties *)

(** ** Derivatives of quadratics *)

Section Quadratics.
Local Open Scope R_scope.

Lemma derivable_pt_lim_quadratic (a b d x : R) :
  derivable_pt_lim (fun t => a * t * t + b * t + d) x (2 * a * x + b).
Proof.
  intros eps Heps.
  assert (Hpos : 0 < eps / (Rabs a + 1)).
  { apply Rdiv_lt_0_compat; [exact Heps|]. pose proof (Rabs_pos a). lra. }
  exists (mkposreal _ Hpos). cbn. intros h Hh Hlt.
  replace ((a * (x + h) * (x + h) + b * (x + h) + d - (a * x * x + b * x + d)) / h
           - (2 * a * x + b)) with (a * h) by (field; exact Hh).
  rewrite Rabs_mult.
  pose proof (Rabs_pos a) as Ha. pose proof (Rabs_pos h) as Hh'.
  apply Rle_lt_trans with ((Rabs a + 1) * Rabs h); [nra|].
  apply Rlt_le_trans with ((Rabs a + 1) * (eps / (Rabs a + 1))).
  - apply Rmult_lt_compat_l; lra.
  - right. field. lra.
Qed.

(** A function that agrees everywhere with the quadratic through its
    values at -1, 0 and 1 has that quadratic's derivative. *)
Lemma derivable_pt_lim_by_samples (f : R -> R) (x l : R) :
  (forall t, f t = ((f 1 + f (-1)) / 2 - f 0) * t * t + ((f 1 - f (-1)) / 2) * t + f 0) ->
  l = 2 * ((f 1 + f (-1)) / 2 - f 0) * x + (f 1 - f (-1)) / 2 ->
  derivable_pt_lim f x l.
Proof.
  intros Hf ->.
  apply derivable_pt_lim_ext with
    (f := fun t => ((f 1 + f (-1)) / 2 - f 0) * t * t + ((f 1 - f (-1)) / 2) * t + f 0).
  - intros t. symmetry. apply Hf.
  - apply derivable_pt_lim_quadratic.
Qed.

(** The derivative of a function at a point is unique. *)
Lemma partial_at_unique (f : Vector3 -> R) (i : nat) (xi : Vector3) (l1 l2 : R) :
  partial_at f i xi l1 -> partial_at f i xi l2 -> l1 = l2.
Proof. unfold partial_at. intros H1 H2. eapply uniqueness_limite; eassumption. Qed.

End Quadratics.

(** ** The entity shapes *)

Ltac quadratic_partial :=
  unfold partial_at; cbn;
  apply derivable_pt_lim_by_samples; [intros ?t; lra | lra].

Section ShapeFacts.
Local Open Scope R_scope.
Variable indetR : R.
Variable indetV : Vector3.

(** What the evaluators return, whatever the array held and whatever
    the fresh cells hold. *)
Lemma Vertex_getValues_eq xi N :
  getValues (Vertex indetR) xi N = [1].
Proof. cbn. f_equal. lra. Qed.

Lemma Edge_getValues_eq xi N :
  getValues (Edge indetR indetV) xi N =
    [ (1 - xi.[0]) / 2; (1 + xi.[0]) / 2;
      c * ((1 - xi.[0]) / 2) * ((1 + xi.[0]) / 2) ].
Proof. cbn. repeat (f_equal; try lra). Qed.

Lemma Triangle_getValues_eq xi N :
  getValues (Triangle indetR indetV) xi N =
    [ 1 - xi.[0] - xi.[1]; xi.[0]; xi.[1];
      c * (1 - xi.[0] - xi.[1]) * xi.[0];
      c * xi.[0] * xi.[1];
      c * xi.[1] * (1 - xi.[0] - xi.[1]) ].
Proof. cbn. repeat (f_equal; try lra). Qed.

Lemma Tetrahedron_getValues_eq xi N :
  getValues (Tetrahedron indetR indetV) xi N =
    [ 1 - xi.[0] - xi.[1] - xi.[2]; xi.[0]; xi.[1]; xi.[2];
      c * (1 - xi.[0] - xi.[1] - xi.[2]) * xi.[0];
      c * xi.[0] * xi.[1];
      c * xi.[1] * (1 - xi.[0] - xi.[1] - xi.[2]);
      c * (1 - xi.[0] - xi.[1] - xi.[2]) * xi.[2];
      c * xi.[0] * xi.[2];
      c * xi.[1] * xi.[2] ].
Proof. cbn. repeat (f_equal; try lra). Qed.

(** The shape an entity type is given by the table. *)
Lemma getEntityShape_supported type S :
  getEntityShape indetR indetV type = Some (Some S) ->
  (type = VERTEX /\ S = Vertex indetR) \/
  (type = EDGE /\ S = Edge indetR indetV) \/
  (type = TRIANGLE /\ S = Triangle indetR indetV) \/
  (type = TET /\ S = Tetrahedron indetR indetV).
Proof.
  unfold getEntityShape. destruct (Z.leb_spec 0 type) as [Hle|]; [|discriminate].
  intros Hs.
  assert (Hlt : (Z.to_nat type < 8)%nat).
  { apply lookup_lt_Some in Hs. exact Hs. }
  assert (Hcases : (type = 0 \/ type = 1 \/ type = 2 \/ type = 3 \/ type = 4
                    \/ type = 5 \/ type = 6 \/ type = 7)%Z) by lia.
  destruct Hcases as [-> | [-> | [-> | [-> | [-> | [-> | [-> | ->] ] ] ] ] ] ]; cbn in Hs;
    try discriminate; inversion Hs; subst; unfold VERTEX, EDGE, TRIANGLE, TET; tauto.
Qed.

Lemma Edge_gradient xi N dN k :
  (k < 3)%nat ->
  gradient_at (fun p => getValues (Edge indetR indetV) p N !!! k) xi
    (getLocalGradients (Edge indetR indetV) xi dN !!! k).
Proof.
  intros Hk i Hi. destruct xi as [x y z].
  destruct k as [|[|[|k]]]; try lia;
    destruct i as [|[|[|i]]]; try lia; quadratic_partial.
Qed.

Lemma Triangle_gradient xi N dN k :
  (k < 6)%nat ->
  gradient_at (fun p => getValues (Triangle indetR indetV) p N !!! k) xi
    (getLocalGradients (Triangle indetR indetV) xi dN !!! k).
Proof.
  intros Hk i Hi. destruct xi as [x y z].
  destruct k as [|[|[|[|[|[|k]]]]]]; try lia;
    destruct i as [|[|[|i]]]; try lia; quadratic_partial.
Qed.

Lemma Tetrahedron_gradient xi N dN k :
  (k < 10)%nat ->
  gradient_at (fun p => getValues (Tetrahedron indetR indetV) p N !!! k) xi
    (getLocalGradients (Tetrahedron indetR indetV) xi dN !!! k).
Proof.
  intros Hk i Hi. destruct xi as [x y z].
  destruct k as [|[|[|[|[|[|[|[|[|[|k]]]]]]]]]]; try lia;
    destruct i as [|[|[|i]]]; try lia; quadratic_partial.
Qed.

End ShapeFacts.

(** ** Binary64 arithmetic *)

Section Binary64Facts.









End Binary64Facts.



Section ShapeClaims.
Local Open Scope R_scope.

(** Every entry of a value basis is a vertex entry or a bubble of two
    vertex entries. *)
Lemma entries_are_vertex_or_bubble indetR indetV type S k :
  getEntityShape indetR indetV type = Some (Some S) ->
  (k < Z.to_nat (countNodes S))%nat ->
  (k < vertex_entries type)%nat \/
  exists i j, (k, (i, j)) ∈ bubbles type /\
              (i < vertex_entries type)%nat /\ (j < vertex_entries type)%nat.
Proof.
  intros HS Hk.
  destruct (getEntityShape_supported _ _ _ _ HS)
    as [[-> ->] | [[-> ->] | [[-> ->] | [-> ->] ] ] ]; cbn in Hk |- *.
  - left. lia.
  - destruct k as [|[|[|k] ] ]; try lia.
    right. exists 0%nat, 1%nat. repeat split; [set_solver | lia | lia].
  - destruct k as [|[|[|[|[|[|k] ] ] ] ] ]; try lia; right;
      [exists 0%nat, 1%nat | exists 1%nat, 2%nat | exists 2%nat, 0%nat];
      (repeat split; [set_solver | lia | lia]).
  - destruct k as [|[|[|[|[|[|[|[|[|[|k] ] ] ] ] ] ] ] ] ]; try lia; right;
      [exists 0%nat, 1%nat | exists 1%nat, 2%nat | exists 2%nat, 0%nat
       | exists 0%nat, 3%nat | exists 1%nat, 3%nat | exists 2%nat, 3%nat];
      (repeat split; [set_solver | lia | lia]).
Qed.

(** The vertex entries sum to 1 at every point, inside the reference
    domain or not. *)
Lemma linear_part_sums_to_one_everywhere indetR indetV type S xi N :
  getEntityShape indetR indetV type = Some (Some S) ->
  sum (take (vertex_entries type) (getValues S xi N)) = 1.
Proof.
  intros HS.
  destruct (getEntityShape_supported _ _ _ _ HS)
    as [[-> ->] | [[-> ->] | [[-> ->] | [-> ->] ] ] ].
  - rewrite Vertex_getValues_eq. cbn. lra.
  - rewrite Edge_getValues_eq. cbn. lra.
  - rewrite Triangle_getValues_eq. cbn. lra.
  - rewrite Tetrahedron_getValues_eq. cbn. lra.
Qed.

(** C1: for the edge, triangle and tetrahedron shapes and every
    reference coordinate [xi], the value basis and the gradient basis
    have the shape's node count as their length, and entry [k] of the
    gradient basis is the gradient, with respect to the three reference
    coordinates and over the real numbers, of entry [k] of the value
    basis. *)
Theorem gradients_are_exact_derivatives
    (indetR : R) (indetV : Vector3) (type : Z) (S : EntityShape)
    (xi : Vector3) (N : NewArray R) (dN : NewArray Vector3) (k : nat) :
  type = EDGE \/ type = TRIANGLE \/ type = TET ->
  getEntityShape indetR indetV type = Some (Some S) ->
  (k < Z.to_nat (countNodes S))%nat ->
  length (getValues S xi N) = Z.to_nat (countNodes S) /\
  length (getLocalGradients S xi dN) = Z.to_nat (countNodes S) /\
  gradient_at (fun p => getValues S p N !!! k) xi (getLocalGradients S xi dN !!! k).
Proof.
  intros Htype HS Hk.
  destruct (getEntityShape_supported _ _ _ _ HS)
    as [[-> ->] | [[-> ->] | [[-> ->] | [-> ->] ] ] ].
  - unfold VERTEX, EDGE, TRIANGLE, TET in Htype. lia.
  - split; [reflexivity|]. split; [reflexivity|]. apply Edge_gradient. exact Hk.
  - split; [reflexivity|]. split; [reflexivity|]. apply Triangle_gradient. exact Hk.
  - split; [reflexivity|]. split; [reflexivity|]. apply Tetrahedron_gradient. exact Hk.
Qed.

Lemma gradients_are_exact_derivatives_witness :
  gradient_at (fun p => getValues (Triangle 0 vzero) p [] !!! 3%nat)
    (mkVector3 (1 / 4) (1 / 2) 0)
    (getLocalGradients (Triangle 0 vzero) (mkVector3 (1 / 4) (1 / 2) 0) [] !!! 3%nat).
Proof.
  exact (proj2 (proj2 (gradients_are_exact_derivatives 0 vzero TRIANGLE
    (Triangle 0 vzero) (mkVector3 (1 / 4) (1 / 2) 0) [] [] 3%nat
    (or_intror (or_introl eq_refl)) eq_refl (ltac:(cbn; lia))))).
Defined.

(** C6, as the code has it: the shape the table gives a vertex has a
    [getLocalGradients] that neither allocates nor writes, so the
    caller's gradient array comes back as it was passed, of length 0
    when it was default constructed; the value basis is the one entry 1
    and the node count is 1. *)
Theorem Vertex_gradients_left_untouched
    (indetR : R) (indetV : Vector3) (xi : Vector3)
    (N : NewArray R) (dN : NewArray Vector3) :
  getEntityShape indetR indetV VERTEX = Some (Some (Vertex indetR)) /\
  getLocalGradients (Vertex indetR) xi dN = dN /\
  length (getLocalGradients (Vertex indetR) xi []) = 0%nat /\
  getValues (Vertex indetR) xi N = [1] /\
  countNodes (Vertex indetR) = 1%Z.
Proof.
  split; [reflexivity|]. split; [reflexivity|]. split; [reflexivity|].
  split; [apply Vertex_getValues_eq | reflexivity].
Qed.

(** C6 fails as stated: called on a default constructed array at the
    origin, the vertex shape's [getLocalGradients] leaves it empty, not
    the one-entry sequence holding the zero vector. *)
Lemma Vertex_gradients_not_zero_entry :
  ~ (length (getLocalGradients (Vertex 0) vzero []) = 1%nat /\
     getLocalGradients (Vertex 0) vzero [] = [vzero]).
Proof. cbn. intros [Hlen _]. discriminate Hlen. Qed.



(** C8 fails as stated for the doubles the code returns: at the
    interior point (0.3, 0.4) of the reference triangle the three
    vertex entries of the binary64 value basis sum, taken exactly, to
    1 - 2^-54, and accumulated in binary64 to the double just below 1. *)
Lemma linear_part_does_not_sum_to_one_in_binary64 :
  (0 < SF2Q (Prim2SF (Binary64.vx Binary64.interior_point)) /\
   0 < SF2Q (Prim2SF (Binary64.vy Binary64.interior_point)) /\
   SF2Q (Prim2SF (Binary64.vx Binary64.interior_point))
   + SF2Q (Prim2SF (Binary64.vy Binary64.interior_point)) < 1)%Q /\
  Binary64.getEntityShape 0 (Binary64.mkVector3 0 0 0) TRIANGLE
  = Some (Some (Binary64.Triangle 0 (Binary64.mkVector3 0 0 0))) /\
  (Binary64.exact_sum
     (take (vertex_entries TRIANGLE)
        (Binary64.getValues (Binary64.Triangle 0 (Binary64.mkVector3 0 0 0))
           Binary64.interior_point []))
   == 1 - (1 # 18014398509481984))%Q /\
  ~ (Binary64.exact_sum
       (take (vertex_entries TRIANGLE)
          (Binary64.getValues (Binary64.Triangle 0 (Binary64.mkVector3 0 0 0))
             Binary64.interior_point []))
     == 1)%Q /\
  Binary64.rounded_sum
    (take (vertex_entries TRIANGLE)
       (Binary64.getValues (Binary64.Triangle 0 (Binary64.mkVector3 0 0 0))
          Binary64.interior_point []))
  <> 1%float.
Proof.
  split; [repeat split; vm_compute; reflexivity|].
  split; [reflexivity|].
  split; [vm_compute; reflexivity|].
  split.
  - intros Heq. vm_compute in Heq. discriminate Heq.
  - intros Heq. apply (f_equal Prim2SF) in Heq. vm_compute in Heq. discriminate Heq.
Qed.

(** C8, with the arithmetic read exactly: for every supported entity
    type and every interior point of its reference domain, the vertex
    entries of the value basis sum to 1 over the real numbers. *)
Theorem linear_part_is_partition_of_unity
    (indetR : R) (indetV : Vector3) (type : Z) (S : EntityShape)
    (xi : Vector3) (N : NewArray R) :
  supported type ->
  getEntityShape indetR indetV type = Some (Some S) ->
  interior type xi ->
  sum (take (vertex_entries type) (getValues S xi N)) = 1.
Proof.
  intros _ HS _. eapply linear_part_sums_to_one_everywhere. exact HS.
Qed.

Lemma interior_tet_quarter : interior TET (mkVector3 (1 / 4) (1 / 4) (1 / 4)).
Proof. cbn. lra. Qed.

Lemma linear_part_is_partition_of_unity_witness :
  sum (take 4 (getValues (Tetrahedron 0 vzero) (mkVector3 (1 / 4) (1 / 4) (1 / 4)) [])) = 1.
Proof.
  exact (linear_part_is_partition_of_unity 0 vzero TET (Tetrahedron 0 vzero)
    (mkVector3 (1 / 4) (1 / 4) (1 / 4)) []
    (or_intror (or_intror (or_intror eq_refl))) eq_refl interior_tet_quarter).
Defined.

End ShapeClaims.

(** ** The factory *)

(** C9: [getHierarchic(1)] is what [getLagrange(1)] returns; on every
    call with order 2, whatever the static storage was, the result is
    the address of the one static [q], which is constructed from then
    on; every other order gives the null pointer. *)
Theorem getHierarchic_dispatch (getLagrange : Z -> FieldShapePtr) :
  (forall st, fst (getHierarchic getLagrange 1 st) = getLagrange 1%Z) /\
  (forall st st',
     fst (getHierarchic getLagrange 2 st) = addr_q /\
     fst (getHierarchic getLagrange 2 (snd (getHierarchic getLagrange 2 st))) = addr_q /\
     fst (getHierarchic getLagrange 2 st) = fst (getHierarchic getLagrange 2 st') /\
     q_constructed (snd (getHierarchic getLagrange 2 st)) = true) /\
  (forall o st, o <> 1%Z -> o <> 2%Z -> fst (getHierarchic getLagrange o st) = NULL).
Proof.
  split; [|split].
  - intros st. reflexivity.
  - intros st st'. repeat split.
  - intros o st H1 H2. unfold getHierarchic.
    destruct (Z.eqb_spec o 1) as [->|_]; [contradiction|].
    destruct (Z.eqb_spec o 2) as [->|_]; [contradiction|].
    reflexivity.
Qed.

Lemma getHierarchic_dispatch_witness :
  fst (getHierarchic (fun _ => addr_external 64) 3 (mkStatics false)) = NULL.
Proof.
  refine (proj2 (proj2 (getHierarchic_dispatch (fun _ => addr_external 64)))
            3%Z (mkStatics false) _ _); discriminate.
Defined.

(** ** The projector *)

Section ProjectorFacts.
Local Open Scope R_scope.
Context {T : Type} `{ValueKind T}.
Variable indetR : R.
Variable indetV : Vector3.
Variable createElement : NodeData -> Field -> VectorElement -> ElementOf T.

Local Abbreviation steps := (steps indetV createElement).
Local Abbreviation step := (step indetV createElement).

(** The loop of the constructor overwrites the first [n] cells. *)
Lemma zero_loop_prefix (n : nat) (l : NewArray R) :
  (n <= length l)%nat -> zero_loop n l = replicate n 0 ++ drop n l.
Proof.
  unfold zero_loop. induction n as [|n IH]; intros Hn.
  - cbn. rewrite drop_0. reflexivity.
  - rewrite seq_S, foldl_app. cbn [foldl]. rewrite IH by lia. cbn [Nat.add].
    destruct (lookup_lt_is_Some_2 l n) as [x Hx]; [lia|].
    rewrite insert_app_r_alt by (rewrite length_replicate; lia).
    rewrite length_replicate, Nat.sub_diag.
    rewrite (drop_S l x n Hx). cbn [insert list_insert].
    rewrite replicate_S_end, <- app_assoc. cbn.
    do 3 f_equal. lra.
Qed.

Lemma Projector_ctor_data (a b : Field) :
  data (Projector_ctor (T := T) indetR a b) = replicate (Z.to_nat (countComponents a)) 0.
Proof.
  unfold Projector_ctor. cbn [data]. unfold allocate.
  rewrite zero_loop_prefix by (rewrite length_replicate; lia).
  rewrite drop_ge by (rewrite length_replicate; lia).
  apply app_nil_r.
Qed.

(** No operation assigns the members [to], [from], [mesh] or [data]. *)
Lemma step_keeps_members op P W P' W' :
  step op (P, W) = Some (P', W') ->
  to P' = to P /\ from P' = from P /\ mesh P' = mesh P /\ data P' = data P.
Proof.
  destruct op as [e|n|]; cbn.
  - intros Heq. inversion Heq; subst. cbn. auto.
  - destruct (atNode indetV n P W); cbn; [|discriminate].
    intros Heq. inversion Heq; subst. auto.
  - unfold outEntity.
    destruct (destroy (meshElem P)), (destroy (fromElem P)); cbn; try discriminate.
    intros Heq. inversion Heq; subst. cbn. auto.
Qed.

Lemma steps_keep_members ops : forall P W P' W',
  steps ops (P, W) = Some (P', W') ->
  to P' = to P /\ from P' = from P /\ mesh P' = mesh P /\ data P' = data P.
Proof.
  induction ops as [|op ops IH]; intros P W P' W'; cbn.
  - intros Heq. inversion Heq; subst. auto.
  - destruct (step op (P, W)) as [[P1 W1]|] eqn:Hstep; cbn; [|discriminate].
    intros Hrest. apply IH in Hrest. apply step_keeps_members in Hstep.
    destruct Hrest as (-> & -> & -> & ->). exact Hstep.
Qed.

Lemma steps_app ops1 ops2 s :
  steps (ops1 ++ ops2) s = s' ← steps ops1 s; steps ops2 s'.
Proof.
  revert s. induction ops1 as [|op ops1 IH]; intros s; cbn; [reflexivity|].
  destruct (step op s); cbn; [apply IH | reflexivity].
Qed.

(** A call of [atNode] leaves the object as it is. *)
Lemma atNode_calls_keep_object ns : forall P W P' W',
  steps (map AtNode ns) (P, W) = Some (P', W') -> P' = P.
Proof.
  induction ns as [|n ns IH]; intros P W P' W'; cbn.
  - intros Heq. inversion Heq. reflexivity.
  - destruct (atNode indetV n P W) as [W1|]; cbn; [|discriminate]. apply IH.
Qed.

(** The state a history ending inside entity [e] leads to: the
    members are those of the constructor, the mapping element is the
    one built for [e] and the source element is the one the framework
    built on it. *)
Lemma inside_entity (a b : Field) ops e ns W0 P W :
  steps (ops ++ InEntity e :: map AtNode ns) (Projector_ctor indetR a b, W0) = Some (P, W) ->
  to P = a /\ from P = b /\
  data P = replicate (Z.to_nat (countComponents a)) 0 /\
  meshElem P = Live (mkVectorElement e) /\
  exists W1, fromElem P = Live (createElement W1 b (mkVectorElement e)).
Proof.
  rewrite steps_app. intros Hrun.
  destruct (steps ops (Projector_ctor indetR a b, W0)) as [[P1 W1]|] eqn:Hops;
    cbn in Hrun; [|discriminate].
  apply steps_keep_members in Hops. destruct Hops as (Hto & Hfrom & Hmesh & Hdata).
  apply atNode_calls_keep_object in Hrun. subst P. cbn.
  rewrite Hto, Hfrom, Hdata, Projector_ctor_data. cbn.
  repeat split. exists W1. reflexivity.
Qed.

(** The zero-fill branch of [atNode], taken in a state with both
    elements live. *)
Lemma atNode_zero_fill n P W me fe :
  meshElem P = Live me -> fromElem P = Live fe ->
  (countNodesOn (from P) (ve_getEntity me) = 0 \/
   countNodesOn (from P) (ve_getEntity me) < countNodesOn (to P) (ve_getEntity me))%Z ->
  atNode indetV n P W
  = Some (<[(f_id (to P), ve_getEntity me, n) :=
              take (Z.to_nat (countComponents (to P))) (data P)]> W).
Proof.
  intros Hme Hfe Hcond. unfold atNode. rewrite Hme, Hfe.
  replace ((countNodesOn (from P) (ve_getEntity me) =? 0)%Z
           || (countNodesOn (from P) (ve_getEntity me)
               - countNodesOn (to P) (ve_getEntity me) <? 0)%Z) with true; [reflexivity|].
  symmetry. apply orb_true_iff. rewrite Z.eqb_eq, Z.ltb_lt. lia.
Qed.

(** The sampling branch of [atNode]. *)
Lemma atNode_sample n P W me fe :
  meshElem P = Live me -> fromElem P = Live fe ->
  (countNodesOn (from P) (ve_getEntity me) <> 0 /\
   countNodesOn (from P) (ve_getEntity me) >= countNodesOn (to P) (ve_getEntity me))%Z ->
  atNode indetV n P W
  = Some (<[(f_id (to P), el_getEntity fe, n) :=
              components (el_getValue fe W
                (fs_getNodeXi (getShape (to P)) (el_getType fe) n indetV))]> W).
Proof.
  intros Hme Hfe [Hnz Hge]. unfold atNode. rewrite Hme, Hfe.
  replace ((countNodesOn (from P) (ve_getEntity me) =? 0)%Z
           || (countNodesOn (from P) (ve_getEntity me)
               - countNodesOn (to P) (ve_getEntity me) <? 0)%Z) with false; [reflexivity|].
  symmetry. apply orb_false_iff. rewrite Z.eqb_neq, Z.ltb_ge. lia.
Qed.

End ProjectorFacts.

Section ProjectorClaims.
Local Open Scope R_scope.
Context {T : Type} `{ValueKind T}.
Variable indetR : R.
Variable indetV : Vector3.
Variable createElement : NodeData -> Field -> VectorElement -> ElementOf T.

Local Abbreviation steps := (steps indetV createElement).
Local Abbreviation step := (step indetV createElement).

(** C3: in a state reached by any history of calls that ends inside
    entity [e], when the source declares no node on [e] or fewer than
    the destination, [atNode(n)] stores at node [n] of [e] in the
    destination one 0 per component of the destination, and nothing
    else changes; that is the zero-initialized value of the projector's
    kind when the destination is a field of that kind.  The call
    succeeds, and it gives the same result whatever source element is
    bound, so the source element is not consulted. *)
Theorem atNode_zero_fills_when_source_lacks_nodes
    (a b : Field) (ops : list Op) (e : MeshEntity) (ns : list Z)
    (W0 W : NodeData) (P : Projector T) (n : Z) :
  steps (ops ++ InEntity e :: map AtNode ns) (Projector_ctor indetR a b, W0) = Some (P, W) ->
  (countNodesOn b e = 0 \/ countNodesOn b e < countNodesOn a e)%Z ->
  atNode indetV n P W
    = Some (<[(f_id a, e, n) := replicate (Z.to_nat (countComponents a)) 0]> W) /\
  (countComponents a = Z.of_nat (length (components (zero_value (T := T)))) ->
   atNode indetV n P W = Some (setNodeValue a e n (zero_value (T := T)) W)) /\
  (forall fe' : ElementOf T,
     atNode indetV n
       (mkProjector T (to P) (from P) (mesh P) (meshElem P) (Live fe') (data P)) W
     = atNode indetV n P W).
Proof.
  intros Hrun Hcond.
  destruct (inside_entity _ _ _ _ _ _ _ _ _ _ _ Hrun)
    as (Hto & Hfrom & Hdata & Hme & W1 & Hfe).
  assert (Hfill : forall fe (Q : Projector T),
            to Q = a -> from Q = b -> data Q = data P ->
            meshElem Q = Live (mkVectorElement e) -> fromElem Q = Live fe ->
            atNode indetV n Q W
            = Some (<[(f_id a, e, n) := replicate (Z.to_nat (countComponents a)) 0]> W)).
  { intros fe Q Hqa Hqb Hqd Hqm Hqf.
    rewrite (atNode_zero_fill indetV n Q W _ fe Hqm Hqf)
      by (rewrite Hqa, Hqb; exact Hcond).
    rewrite Hqa, Hqd, Hdata. cbn [ve_getEntity].
    rewrite take_replicate, Nat.min_id. reflexivity. }
  assert (Hmain := Hfill _ P Hto Hfrom eq_refl Hme Hfe).
  split; [exact Hmain|]. split.
  - intros Hkind. rewrite Hmain. unfold setNodeValue.
    rewrite zero_value_components, Hkind, Nat2Z.id. reflexivity.
  - intros fe'. rewrite Hmain. apply (Hfill fe'); cbn; auto.
Qed.

(** C4: in a state reached by any history of calls that ends inside
    entity [e], when the source declares a node on [e] and no fewer
    than the destination, [atNode(n)] takes [xi] from the destination
    shape's [getNodeXi] (at the source element's type and [n]),
    evaluates the bound source element there and stores the value at
    node [n] of the entity the source element reports.  The source
    element is the one the framework built on the mapping element of
    [e]; when it reports another entity than [e], node [n] of [e] is
    left as it was. *)
Theorem atNode_samples_into_source_element_entity
    (a b : Field) (ops : list Op) (e : MeshEntity) (ns : list Z)
    (W0 W : NodeData) (P : Projector T) (fe : ElementOf T) (n : Z) :
  steps (ops ++ InEntity e :: map AtNode ns) (Projector_ctor indetR a b, W0) = Some (P, W) ->
  fromElem P = Live fe ->
  (countNodesOn b e <> 0 /\ countNodesOn b e >= countNodesOn a e)%Z ->
  atNode indetV n P W
    = Some (setNodeValue a (el_getEntity fe) n
              (el_getValue fe W (fs_getNodeXi (getShape a) (el_getType fe) n indetV)) W) /\
  (exists W1, fe = createElement W1 b (createMeshElement (getMesh a) e)) /\
  (el_getEntity fe <> e ->
   forall W', atNode indetV n P W = Some W' ->
     W' !! (f_id a, e, n) = W !! (f_id a, e, n)).
Proof.
  intros Hrun Hfe Hcond.
  destruct (inside_entity _ _ _ _ _ _ _ _ _ _ _ Hrun)
    as (Hto & Hfrom & Hdata & Hme & W1 & Hfe1).
  assert (Hmain := atNode_sample indetV n P W _ fe Hme Hfe).
  rewrite Hto, Hfrom in Hmain. specialize (Hmain Hcond).
  split; [exact Hmain|]. split.
  - exists W1. rewrite Hfe in Hfe1. inversion Hfe1. reflexivity.
  - intros Hne W' HW'. rewrite Hmain in HW'. inversion HW'; subst W'.
    unfold setNodeValue. apply lookup_insert_ne. congruence.
Qed.

(** C10: the constructor leaves [data] with exactly the destination's
    component count of cells, every one 0; no call of [inEntity],
    [atNode] or [outEntity] changes it; so it is all 0 after every
    history of calls, and every zero-fill write stores the same all-zero
    value whatever was processed before. *)
Theorem data_is_zero_throughout (a b : Field) :
  length (data (Projector_ctor (T := T) indetR a b)) = Z.to_nat (countComponents a) /\
  data (Projector_ctor (T := T) indetR a b) = replicate (Z.to_nat (countComponents a)) 0 /\
  (forall op P W P' W', step op (P, W) = Some (P', W') -> data P' = data P) /\
  (forall ops W0 P W,
     steps ops (Projector_ctor indetR a b, W0) = Some (P, W) ->
     data P = replicate (Z.to_nat (countComponents a)) 0) /\
  (forall ops W0 P W me fe n,
     steps ops (Projector_ctor indetR a b, W0) = Some (P, W) ->
     meshElem P = Live me -> fromElem P = Live fe ->
     (countNodesOn b (ve_getEntity me) = 0 \/
      countNodesOn b (ve_getEntity me) < countNodesOn a (ve_getEntity me))%Z ->
     atNode indetV n P W
     = Some (<[(f_id a, ve_getEntity me, n) :=
                 replicate (Z.to_nat (countComponents a)) 0]> W)).
Proof.
  assert (Hreach : forall ops W0 P W,
            steps ops (Projector_ctor indetR a b, W0) = Some (P, W) ->
            to P = a /\ from P = b /\
            data P = replicate (Z.to_nat (countComponents a)) 0).
  { intros ops W0 P W Hrun. apply steps_keep_members in Hrun.
    destruct Hrun as (-> & -> & _ & ->). rewrite Projector_ctor_data. auto. }
  split; [rewrite Projector_ctor_data; apply length_replicate|].
  split; [apply Projector_ctor_data|]. split; [|split].
  - intros op P W P' W' Hstep. apply step_keeps_members in Hstep. tauto.
  - intros ops W0 P W Hrun. apply (Hreach _ _ _ _ Hrun).
  - intros ops W0 P W me fe n Hrun Hme Hfe Hcond.
    destruct (Hreach _ _ _ _ Hrun) as (Hto & Hfrom & Hdata).
    rewrite (atNode_zero_fill indetV n P W me fe Hme Hfe)
      by (rewrite Hto, Hfrom; exact Hcond).
    rewrite Hto, Hdata, take_replicate, Nat.min_id. reflexivity.
Qed.

End ProjectorClaims.

Lemma sample_vertex_counts :
  (countNodesOn Sample.source 3 <> 0 /\
   countNodesOn Sample.source 3 >= countNodesOn Sample.dest 3)%Z.
Proof. split; [discriminate | vm_compute; discriminate]. Qed.

Lemma atNode_zero_fills_when_source_lacks_nodes_witness :
  atNode (T := R) vzero 0%Z Sample.inside_edge ∅
  = Some (<[(0%nat, 20%Z, 0%Z) := [0%R] ]> ∅).
Proof.
  rewrite (proj1 (atNode_zero_fills_when_source_lacks_nodes 0 vzero Sample.shifted
    Sample.dest Sample.source [] 20%Z [] ∅ ∅ Sample.inside_edge 0%Z
    eq_refl (or_introl eq_refl))).
  do 2 f_equal.
Defined.

Lemma atNode_samples_into_source_element_entity_witness :
  atNode (T := R) vzero 0%Z Sample.inside_vertex ∅
  = Some (<[(0%nat, 103%Z, 0%Z) := [7%R] ]> ∅).
Proof.
  rewrite (proj1 (atNode_samples_into_source_element_entity 0 vzero Sample.shifted
    Sample.dest Sample.source [] 3%Z [] ∅ ∅ Sample.inside_vertex
    (Sample.shifted ∅ Sample.source (mkVectorElement 3%Z)) 0%Z
    eq_refl eq_refl sample_vertex_counts)).
  unfold setNodeValue. do 2 f_equal.
Defined.

Lemma data_is_zero_throughout_witness :
  exists P W,
    steps (T := R) vzero Sample.shifted
      [InEntity 20%Z; AtNode 0%Z; OutEntity; InEntity 3%Z; AtNode 0%Z]
      (Projector_ctor 0 Sample.dest Sample.source, ∅) = Some (P, W) /\
    data P = [0%R].
Proof.
  eexists. eexists. split; [reflexivity|].
  exact (proj1 (proj2 (proj2 (proj2
    (data_is_zero_throughout 0 vzero Sample.shifted Sample.dest Sample.source))))
    [InEntity 20%Z; AtNode 0%Z; OutEntity; InEntity 3%Z; AtNode 0%Z] ∅ _ _ eq_refl).
Defined.

(** ** The traversal always completes *)

Section Traversal.
Context {T : Type} `{ValueKind T}.
Variable indetV : Vector3.
Variable createElement : NodeData -> Field -> VectorElement -> ElementOf T.

(** With both elements live every call of [atNode] is defined. *)
Lemma atNode_calls_defined ns : forall P W me fe,
  meshElem P = Live me -> fromElem P = Live fe ->
  exists W', steps indetV createElement (map AtNode ns) (P, W) = Some (P, W').
Proof.
  induction ns as [|n ns IH]; intros P W me fe Hme Hfe; cbn.
  - exists W. reflexivity.
  - unfold atNode. rewrite Hme, Hfe.
    destruct ((countNodesOn (from P) (ve_getEntity me) =? 0)%Z
              || (countNodesOn (from P) (ve_getEntity me)
                  - countNodesOn (to P) (ve_getEntity me) <? 0)%Z);
      cbn; eapply IH; eassumption.
Qed.

(** Entering an entity, visiting its nodes and leaving it is defined
    in every state. *)
Lemma visit_defined f e P W :
  exists P' W', steps indetV createElement (visit f e) (P, W) = Some (P', W').
Proof.
  unfold visit. cbn [steps step]. cbn [fst snd inEntity mbind option_bind].
  rewrite steps_app, <- map_map.
  set (P1 := mkProjector T (to P) (from P) (mesh P)
               (Live (createMeshElement (mesh P) e))
               (Live (createElement W (from P) (createMeshElement (mesh P) e))) (data P)).
  destruct (atNode_calls_defined
              (map Z.of_nat (seq 0 (Z.to_nat (countNodesOn f e)))) P1 W _ _ eq_refl eq_refl)
    as [W' HW'].
  rewrite HW'. cbn. eauto.
Qed.

Lemma apply_defined order f : forall s, exists s', apply indetV createElement order f s = Some s'.
Proof.
  unfold apply. induction order as [|e order IH]; intros [P W]; cbn [map concat].
  - exists (P, W). reflexivity.
  - rewrite steps_app. destruct (visit_defined f e P W) as (P' & W' & ->). cbn.
    apply IH.
Qed.

Lemma run_defined order s : exists s', run indetV createElement order s = Some s'.
Proof. apply apply_defined. Qed.

End Traversal.

(** ** projectHierarchicField *)

Section ProjectClaims.
Variable indetR : R.
Variable indetV : Vector3.
Variable createElementS : NodeData -> Field -> VectorElement -> ElementOf R.
Variable createElementV : NodeData -> Field -> VectorElement -> ElementOf Vector3.
Variable createElementM : NodeData -> Field -> VectorElement -> ElementOf Matrix3x3.
Variable traversal : Field -> list MeshEntity.

Local Abbreviation project :=
  (projectHierarchicField indetR indetV createElementS createElementV createElementM
     traversal).

Lemma finish_returns {T : Type} (r : option (Projector T * NodeData)) :
  (exists s, r = Some s) -> exists W', finish r = Returned W'.
Proof. intros [s ->]. exists (snd s). reflexivity. Qed.

(** C5: [projectHierarchicField] ends in an abort exactly when the two
    value kinds differ or the common kind is none of scalar, vector and
    matrix; a difference ends in the failed assertion and a common
    unsupported kind in [fail], each with the nodal data as they were
    on entry; in every other case the call returns. *)
Theorem projectHierarchicField_error_conditions (to from : Field) (W : NodeData) :
  (signals_error (project to from W) <->
   getValueType to <> getValueType from \/ ~ supported_kind (getValueType to)) /\
  (getValueType to <> getValueType from -> project to from W = AssertionFailed W) /\
  (getValueType to = getValueType from -> ~ supported_kind (getValueType to) ->
   project to from W = Failed "projectHierarchicField: unsupported value type" W) /\
  (signals_error (project to from W) -> data_left (project to from W) = Some W) /\
  (getValueType to = getValueType from -> supported_kind (getValueType to) ->
   exists W', project to from W = Returned W').
Proof.
  assert (Hdiff : getValueType to <> getValueType from ->
                  project to from W = AssertionFailed W).
  { intros Hne. unfold projectHierarchicField.
    destruct (Z.eqb_spec (getValueType to) (getValueType from)); [contradiction|].
    reflexivity. }
  assert (Hunsup : getValueType to = getValueType from ->
                   ~ supported_kind (getValueType to) ->
                   project to from W
                   = Failed "projectHierarchicField: unsupported value type" W).
  { intros Heq Hns. unfold projectHierarchicField, supported_kind in *.
    destruct (Z.eqb_spec (getValueType to) (getValueType from)); [|contradiction].
    cbn [negb].
    destruct (Z.eqb_spec (getValueType to) SCALAR); [tauto|].
    destruct (Z.eqb_spec (getValueType to) VECTOR); [tauto|].
    destruct (Z.eqb_spec (getValueType to) MATRIX); [tauto|].
    reflexivity. }
  assert (Hok : getValueType to = getValueType from ->
                supported_kind (getValueType to) ->
                exists W', project to from W = Returned W').
  { intros Heq Hs. unfold projectHierarchicField.
    destruct (Z.eqb_spec (getValueType to) (getValueType from)); [|contradiction].
    cbn [negb].
    destruct (Z.eqb_spec (getValueType to) SCALAR);
      [apply finish_returns, run_defined|].
    destruct (Z.eqb_spec (getValueType to) VECTOR);
      [apply finish_returns, run_defined|].
    destruct (Z.eqb_spec (getValueType to) MATRIX);
      [apply finish_returns, run_defined|].
    unfold supported_kind in Hs. tauto. }
  assert (Hdec : supported_kind (getValueType to) \/ ~ supported_kind (getValueType to)).
  { unfold supported_kind. lia. }
  split; [|split; [exact Hdiff|split; [exact Hunsup|split; [|exact Hok] ] ] ].
  - split.
    + intros Herr.
      destruct (Z.eq_dec (getValueType to) (getValueType from)) as [Heq|Hne]; [|auto].
      destruct Hdec as [Hs|Hns]; [|auto].
      destruct (Hok Heq Hs) as [W' HW']. rewrite HW' in Herr. destruct Herr.
    + intros [Hne|Hns].
      * rewrite (Hdiff Hne). exact I.
      * destruct (Z.eq_dec (getValueType to) (getValueType from)) as [Heq|Hne].
        -- rewrite (Hunsup Heq Hns). exact I.
        -- rewrite (Hdiff Hne). exact I.
  - intros Herr.
    destruct (Z.eq_dec (getValueType to) (getValueType from)) as [Heq|Hne].
    + destruct Hdec as [Hs|Hns].
      * destruct (Hok Heq Hs) as [W' HW']. rewrite HW' in Herr. destruct Herr.
      * rewrite (Hunsup Heq Hns). reflexivity.
    + rewrite (Hdiff Hne). reflexivity.
Qed.

End ProjectClaims.

Lemma projectHierarchicField_error_conditions_witness :
  projectHierarchicField 0 vzero Sample.shifted Sample.constantV Sample.constantM
    (fun _ => [20%Z; 3%Z]) Sample.dest_vector Sample.source ∅
  = AssertionFailed ∅.
Proof.
  refine (proj1 (proj2 (projectHierarchicField_error_conditions 0 vzero Sample.shifted
    Sample.constantV Sample.constantM (fun _ => [20%Z; 3%Z])
    Sample.dest_vector Sample.source ∅)) _).
  discriminate.
Defined.

(** ** The bubble constant as a binary64 number *)

(** The real constant of the evaluators is the rational the literal of
    line 17 denotes. *)
Lemma c_is_its_literal : c = Q2R c_literal.
Proof. reflexivity. Qed.

(** The two decimal literals denote different rationals: they differ by
    2e-15. *)
Lemma literals_differ : (c_spec_literal - c_literal == 2 / 1000000000000000)%Q.
Proof. vm_compute. reflexivity. Qed.

(** C2 fails as stated: the binary64 number the constant of the code
    holds is not the one the literal -2.449489742783178 denotes. *)
Lemma c_double_is_not_the_spec_literal : c_double <> c_spec_double.
Proof.
  intros Heq. apply (f_equal Prim2SF) in Heq. vm_compute in Heq. discriminate Heq.
Qed.

(** C2, as the code has it: the constant is the literal
    -2.44948974278318.  Read exactly it is that rational; as a double it
    is the binary64 number -5515760546423091 * 2^-51, a nearest double
    of that rational.  The literal -2.449489742783178 denotes the double
    -5515760546423086 * 2^-51, five units in the last place away, and
    the constant of the code is not a nearest double of it. *)
Theorem bubble_constant_is_the_literal_of_the_code :
  c = Q2R c_literal /\
  Prim2SF c_double = S754_finite true 5515760546423091 (-51) /\
  nearest_double c_literal c_double = true /\
  Prim2SF c_spec_double = S754_finite true 5515760546423086 (-51) /\
  nearest_double c_spec_literal c_spec_double = true /\
  ulps_apart c_double c_spec_double = Some 5%Z /\
  nearest_double c_spec_literal c_double = false.
Proof.
  split; [exact c_is_its_literal|].
  repeat split; vm_compute; reflexivity.
Qed.

(** * Further properties of the code *)

(** ** The entity shapes *)

Section ShapeExtras.
Local Open Scope R_scope.

(** X1: the value basis of every shape of the table has exactly
    [countNodes] entries, one per vertex entry and one per bubble, and
    that count is what the family's [countNodesOn] distributes: one
    node on each vertex and one on each edge of the entity, none on a
    face or a region. *)
Theorem value_basis_length_is_countNodes
    (indetR : R) (indetV : Vector3) (type : Z) (S : EntityShape)
    (xi : Vector3) (N : NewArray R) :
  getEntityShape indetR indetV type = Some (Some S) ->
  length (getValues S xi N) = Z.to_nat (countNodes S) /\
  Z.to_nat (countNodes S) = (vertex_entries type + length (bubbles type))%nat /\
  countNodes S =
    (Z.of_nat (vertex_entries type) * Hierarchic_countNodesOn VERTEX
     + Z.of_nat (length (bubbles type)) * Hierarchic_countNodesOn EDGE
     + (if (type =? VERTEX)%Z || (type =? EDGE)%Z then 0
        else Hierarchic_countNodesOn type))%Z.
Proof.
  intros HS.
  destruct (getEntityShape_supported _ _ _ _ HS)
    as [[-> ->] | [[-> ->] | [[-> ->] | [-> ->] ] ] ]; repeat split.
Qed.

Lemma value_basis_length_is_countNodes_witness :
  length (getValues (Tetrahedron 0 vzero) (mkVector3 1 2 3) [5; 6]) = 10%nat.
Proof.
  exact (proj1 (value_basis_length_is_countNodes 0 vzero TET (Tetrahedron 0 vzero)
    (mkVector3 1 2 3) [5; 6] eq_refl)).
Defined.

(** X2: every cell an evaluator allocates is assigned before it
    returns: the value basis, and for every type but the vertex the
    gradient basis, depend neither on what the output array held nor
    on what the fresh cells hold. *)
Theorem evaluators_assign_every_cell
    (r r' : R) (v v' : Vector3) (type : Z) (S S' : EntityShape)
    (xi : Vector3) (N N' : NewArray R) (dN dN' : NewArray Vector3) :
  getEntityShape r v type = Some (Some S) ->
  getEntityShape r' v' type = Some (Some S') ->
  getValues S xi N = getValues S' xi N' /\
  (type <> VERTEX -> getLocalGradients S xi dN = getLocalGradients S' xi dN').
Proof.
  intros HS HS'.
  destruct (getEntityShape_supported _ _ _ _ HS)
    as [[-> ->] | [[-> ->] | [[-> ->] | [-> ->] ] ] ];
    destruct (getEntityShape_supported _ _ _ _ HS')
      as [[Ht ->] | [[Ht ->] | [[Ht ->] | [Ht ->] ] ] ]; try discriminate Ht;
    (split; [reflexivity | intros Hne; try reflexivity]).
  contradiction.
Qed.

Lemma evaluators_assign_every_cell_witness :
  getValues (Triangle 0 vzero) (mkVector3 1 2 3) [] =
  getValues (Triangle 9 (mkVector3 9 9 9)) (mkVector3 1 2 3) [4; 4].
Proof.
  exact (proj1 (evaluators_assign_every_cell 0 9 vzero (mkVector3 9 9 9) TRIANGLE
    (Triangle 0 vzero) (Triangle 9 (mkVector3 9 9 9)) (mkVector3 1 2 3) [] [4; 4] [] []
    eq_refl eq_refl)).
Defined.

(** X3: [getEntityShape] has a shape exactly for vertex, edge, triangle
    and tetrahedron, the null pointer exactly for quadrilateral,
    hexahedron, prism and pyramid, and reads outside its table exactly
    for a type below 0 or from [TYPES] on. *)
Theorem getEntityShape_table (indetR : R) (indetV : Vector3) (type : Z) :
  ((exists S, getEntityShape indetR indetV type = Some (Some S)) <-> supported type) /\
  (getEntityShape indetR indetV type = Some None <->
   type = QUAD \/ type = HEX \/ type = PRISM \/ type = PYRAMID) /\
  (getEntityShape indetR indetV type = None <-> (type < 0 \/ TYPES <= type)%Z).
Proof.
  unfold supported, VERTEX, EDGE, TRIANGLE, QUAD, TET, HEX, PRISM, PYRAMID, TYPES.
  destruct (Z.ltb_spec type 0) as [Hneg|Hnn].
  { unfold getEntityShape. destruct (Z.leb_spec 0 type); [lia|].
    repeat split; try (intros [S HS]; discriminate HS); try discriminate; try lia; auto. }
  destruct (Z.leb_spec 8 type) as [Hbig|Hsmall].
  { assert (Hnone : getEntityShape indetR indetV type = None).
    { unfold getEntityShape. destruct (Z.leb_spec 0 type); [|reflexivity].
      apply lookup_ge_None. cbn. lia. }
    rewrite Hnone.
    repeat split; try (intros [S HS]; discriminate HS); try discriminate; try lia; auto. }
  assert (Hcases : (type = 0 \/ type = 1 \/ type = 2 \/ type = 3 \/ type = 4
                    \/ type = 5 \/ type = 6 \/ type = 7)%Z) by lia.
  destruct Hcases as [-> | [-> | [-> | [-> | [-> | [-> | [-> | ->] ] ] ] ] ] ]; cbn;
    repeat split; try (intros [S HS]; discriminate HS); try discriminate;
    try lia; try (intros _; eexists; reflexivity); auto.
Qed.

End ShapeExtras.

Section InterpolationExtras.
Local Open Scope R_scope.

(** X4: the vertex entries interpolate at the vertices: at vertex [j]
    of the reference domain, vertex entry [i] of the value basis is 1
    when [i = j] and 0 otherwise. *)
Theorem vertex_entries_are_nodal
    (indetR : R) (indetV : Vector3) (type : Z) (S : EntityShape)
    (N : NewArray R) (i j : nat) (p : Vector3) :
  getEntityShape indetR indetV type = Some (Some S) ->
  reference_vertices type !! j = Some p ->
  (i < vertex_entries type)%nat ->
  getValues S p N !!! i = if (i =? j)%nat then 1 else 0.
Proof.
  intros HS Hp Hi.
  destruct (getEntityShape_supported _ _ _ _ HS)
    as [[-> ->] | [[-> ->] | [[-> ->] | [-> ->] ] ] ]; cbn in Hp, Hi.
  - rewrite Vertex_getValues_eq.
    destruct j as [|j]; [|discriminate Hp].
    destruct i as [|i]; [reflexivity | lia].
  - rewrite Edge_getValues_eq.
    destruct j as [|[|j] ]; try discriminate Hp; inversion Hp; subst p;
      destruct i as [|[|i] ]; try lia; cbn; lra.
  - rewrite Triangle_getValues_eq.
    destruct j as [|[|[|j] ] ]; try discriminate Hp; inversion Hp; subst p;
      destruct i as [|[|[|i] ] ]; try lia; cbn; lra.
  - rewrite Tetrahedron_getValues_eq.
    destruct j as [|[|[|[|j] ] ] ]; try discriminate Hp; inversion Hp; subst p;
      destruct i as [|[|[|[|i] ] ] ]; try lia; cbn; lra.
Qed.

Lemma vertex_entries_are_nodal_witness :
  getValues (Tetrahedron 0 vzero) (mkVector3 0 0 1) [] !!! 3%nat = 1 /\
  getValues (Tetrahedron 0 vzero) (mkVector3 0 0 1) [] !!! 1%nat = 0.
Proof.
  split.
  - exact (vertex_entries_are_nodal 0 vzero TET (Tetrahedron 0 vzero) [] 3 3
             (mkVector3 0 0 1) eq_refl eq_refl (ltac:(vm_compute; lia))).
  - exact (vertex_entries_are_nodal 0 vzero TET (Tetrahedron 0 vzero) [] 1 3
             (mkVector3 0 0 1) eq_refl eq_refl (ltac:(vm_compute; lia))).
Defined.



(** X7: on the face of the reference tetrahedron where the third
    coordinate is 0, the tetrahedron's value basis is the triangle's:
    its entries 0, 1, 2, 4, 5, 6 are the six entries of the triangle at
    the same point, and the entry of the opposite vertex and the three
    bubbles of the edges that leave the face are 0. *)
Theorem tetrahedron_restricts_to_triangle
    (indetR : R) (indetV : Vector3) (xi : Vector3) (N N' : NewArray R) :
  xi.[2] = 0 ->
  pick (getValues (Tetrahedron indetR indetV) xi N) [0; 1; 2; 4; 5; 6]%nat
    = getValues (Triangle indetR indetV) xi N' /\
  pick (getValues (Tetrahedron indetR indetV) xi N) [3; 7; 8; 9]%nat = [0; 0; 0; 0].
Proof.
  intros Hz. rewrite Tetrahedron_getValues_eq, Triangle_getValues_eq.
  destruct xi as [x y z]. cbn in Hz |- *. subst z.
  split; repeat (f_equal; try lra).
Qed.

Lemma tetrahedron_restricts_to_triangle_witness :
  pick (getValues (Tetrahedron 0 vzero) (mkVector3 (1 / 4) (1 / 2) 0) []) [3; 7; 8; 9]%nat
  = [0; 0; 0; 0].
Proof.
  exact (proj2 (tetrahedron_restricts_to_triangle 0 vzero (mkVector3 (1 / 4) (1 / 2) 0)
    [] [] eq_refl)).
Defined.

(** X8: on the edge of the reference triangle where the second
    coordinate is 0, met from the edge's coordinate [s] at
    [((1 + s) / 2, 0)], the triangle's value basis is the edge's: its
    entries 0, 1, 3 are the three entries of the edge at [s], and the
    entry of the opposite vertex and the two other bubbles are 0. *)
Theorem triangle_restricts_to_edge
    (indetR : R) (indetV : Vector3) (s : R) (xi p : Vector3) (N N' : NewArray R) :
  xi.[0] = (1 + s) / 2 -> xi.[1] = 0 -> p.[0] = s ->
  pick (getValues (Triangle indetR indetV) xi N) [0; 1; 3]%nat
    = getValues (Edge indetR indetV) p N' /\
  pick (getValues (Triangle indetR indetV) xi N) [2; 4; 5]%nat = [0; 0; 0].
Proof.
  intros Hx Hy Hs. rewrite Triangle_getValues_eq, Edge_getValues_eq.
  destruct xi as [x y z], p as [px py pz]. cbn in Hx, Hy, Hs |- *. subst x y px.
  split; repeat (f_equal; try lra).
Qed.

Lemma triangle_restricts_to_edge_witness :
  pick (getValues (Triangle 0 vzero) (mkVector3 (3 / 4) 0 0) []) [0; 1; 3]%nat
  = getValues (Edge 0 vzero) (mkVector3 (1 / 2) 0 0) [].
Proof.
  refine (proj1 (triangle_restricts_to_edge 0 vzero (1 / 2) (mkVector3 (3 / 4) 0 0)
    (mkVector3 (1 / 2) 0 0) [] [] _ eq_refl eq_refl)).
  cbn. lra.
Defined.

End InterpolationExtras.

(** ** The projector *)

Section ProjectorExtras.
Local Open Scope R_scope.
Context {T : Type} `{ValueKind T}.
Variable indetR : R.
Variable indetV : Vector3.
Variable createElement : NodeData -> Field -> VectorElement -> ElementOf T.

(** A call of [atNode] changes one slot: node [n] of the destination,
    on the entity of the mapping element or on the one the source
    element reports. *)
Lemma atNode_writes_one_slot n P W W' me fe :
  meshElem P = Live me -> fromElem P = Live fe ->
  atNode indetV n P W = Some W' ->
  exists e' vals,
    (e' = ve_getEntity me \/ e' = el_getEntity fe) /\
    W' = <[(f_id (to P), e', n) := vals]> W.
Proof.
  intros Hme Hfe. unfold atNode. rewrite Hme, Hfe.
  destruct ((countNodesOn (from P) (ve_getEntity me) =? 0)%Z
            || (countNodesOn (from P) (ve_getEntity me)
                - countNodesOn (to P) (ve_getEntity me) <? 0)%Z);
    intros Heq; inversion Heq; subst W'; unfold setComponents, setNodeValue; eauto.
Qed.

(** No call changes a slot of a field other than the destination. *)
Lemma step_keeps_other_fields op P W P' W' fid e n :
  step indetV createElement op (P, W) = Some (P', W') ->
  fid <> f_id (to P) ->
  W' !! (fid, e, n) = W !! (fid, e, n).
Proof.
  destruct op as [e0|n0|]; cbn.
  - intros Heq _. inversion Heq. reflexivity.
  - destruct (atNode indetV n0 P W) as [W1|] eqn:Hat; cbn; [|discriminate].
    intros Heq Hne. inversion Heq; subst P' W'.
    unfold atNode in Hat.
    destruct (meshElem P) as [|me|]; try discriminate Hat.
    destruct (fromElem P) as [|fe|]; try discriminate Hat.
    destruct ((countNodesOn (from P) (ve_getEntity me) =? 0)%Z
              || (countNodesOn (from P) (ve_getEntity me)
                  - countNodesOn (to P) (ve_getEntity me) <? 0)%Z);
      inversion Hat; unfold setComponents, setNodeValue;
      apply lookup_insert_ne; congruence.
  - destruct (outEntity P); cbn; [|discriminate].
    intros Heq _. inversion Heq. reflexivity.
Qed.

Lemma steps_keep_other_fields ops : forall P W P' W' fid e n,
  steps indetV createElement ops (P, W) = Some (P', W') ->
  fid <> f_id (to P) ->
  W' !! (fid, e, n) = W !! (fid, e, n).
Proof.
  induction ops as [|op ops IH]; intros P W P' W' fid e n; cbn.
  - intros Heq _. inversion Heq. reflexivity.
  - destruct (step indetV createElement op (P, W)) as [[P1 W1]|] eqn:Hstep;
      cbn; [|discriminate].
    intros Hrest Hne.
    pose proof (step_keeps_members _ _ _ _ _ _ _ Hstep) as (Hto & _).
    rewrite (IH _ _ _ _ fid e n Hrest) by (rewrite Hto; exact Hne).
    eapply step_keeps_other_fields; eassumption.
Qed.

(** X11: when the destination's shape is the Hierarchic family, the
    sampling branch of [atNode] evaluates the source element at the
    origin, for every node index and entity type and whatever the
    local [xi] held before [getNodeXi] assigned it. *)
Theorem hierarchic_destination_samples_at_origin
    (r : R) (v : Vector3) (n : Z) (P : Projector T) (W : NodeData)
    (me : VectorElement) (fe : ElementOf T) :
  getShape (to P) = Hierarchic r v ->
  meshElem P = Live me -> fromElem P = Live fe ->
  (countNodesOn (from P) (ve_getEntity me) <> 0 /\
   countNodesOn (from P) (ve_getEntity me) >= countNodesOn (to P) (ve_getEntity me))%Z ->
  atNode indetV n P W
  = Some (setNodeValue (to P) (el_getEntity fe) n
            (el_getValue fe W (mkVector3 0 0 0)) W).
Proof.
  intros Hshape Hme Hfe Hcond.
  rewrite (atNode_sample indetV n P W me fe Hme Hfe Hcond), Hshape. reflexivity.
Qed.

Section WholeTraversal.
(** The framework's source elements report the entity of the mapping
    element they were built on. *)
Hypothesis elements_report_their_entity :
  forall W f m, el_getEntity (createElement W f m) = ve_getEntity m.

Variables a b : Field.
Variable e : MeshEntity.
Hypothesis source_lacks_nodes :
  (countNodesOn b e = 0 \/ countNodesOn b e < countNodesOn a e)%Z.

Local Abbreviation zeros := (replicate (Z.to_nat (countComponents a)) 0).

Local Abbreviation ready := (ready a b).

Lemma ready_kept ops P W P' W' :
  steps indetV createElement ops (P, W) = Some (P', W') -> ready P -> ready P'.
Proof.
  intros Hrun (Hto & Hfrom & Hdata). apply steps_keep_members in Hrun.
  destruct Hrun as (Hto' & Hfrom' & _ & Hdata'). unfold ready.
  rewrite Hto', Hfrom', Hdata'. repeat split; assumption.
Qed.

(** Inside another entity no call of [atNode] touches a slot of [e]. *)
Lemma atNode_calls_elsewhere ks : forall P W P' W' me fe n,
  meshElem P = Live me -> fromElem P = Live fe ->
  ve_getEntity me <> e -> el_getEntity fe <> e ->
  steps indetV createElement (map AtNode ks) (P, W) = Some (P', W') ->
  W' !! (f_id (to P), e, n) = W !! (f_id (to P), e, n).
Proof.
  induction ks as [|k ks IH]; intros P W P' W' me fe n Hme Hfe Hne1 Hne2; cbn.
  - intros Heq. inversion Heq. reflexivity.
  - destruct (atNode indetV k P W) as [W1|] eqn:Hat; cbn; [|discriminate].
    intros Hrest. rewrite (IH _ _ _ _ _ _ n Hme Hfe Hne1 Hne2 Hrest).
    destruct (atNode_writes_one_slot _ _ _ _ _ _ Hme Hfe Hat)
      as (e' & vals & He' & ->).
    apply lookup_insert_ne. destruct He' as [-> | ->]; congruence.
Qed.

(** Inside [e] the calls of [atNode] store zeros at the nodes they
    visit and keep the zeros that are there. *)
Lemma atNode_calls_zero_fill ks : forall P W P' W' fe n,
  ready P -> meshElem P = Live (mkVectorElement e) -> fromElem P = Live fe ->
  steps indetV createElement (map AtNode ks) (P, W) = Some (P', W') ->
  (n ∈ ks \/ W !! (f_id a, e, n) = Some zeros) ->
  W' !! (f_id a, e, n) = Some zeros.
Proof.
  induction ks as [|k ks IH]; intros P W P' W' fe n Hready Hme Hfe; cbn.
  - intros Heq [Hin | Hz]; [apply elem_of_nil in Hin; contradiction|]. inversion Heq; subst. exact Hz.
  - destruct Hready as (Hto & Hfrom & Hdata).
    rewrite (atNode_zero_fill indetV k P W _ fe Hme Hfe)
      by (rewrite Hto, Hfrom; exact source_lacks_nodes).
    cbn. rewrite Hto, Hdata, take_replicate, Nat.min_id.
    intros Hrest Hcase.
    apply (IH _ _ _ _ fe n (conj Hto (conj Hfrom Hdata)) Hme Hfe Hrest).
    destruct (decide (n = k)) as [-> | Hnk].
    + right. apply lookup_insert_eq.
    + destruct Hcase as [Hin | Hz].
      * left. apply elem_of_cons in Hin. destruct Hin as [-> | Hin]; [contradiction | exact Hin].
      * right. rewrite <- Hz. apply lookup_insert_ne. congruence.
Qed.

Lemma visit_elsewhere e' P W P' W' n :
  e' <> e -> ready P ->
  steps indetV createElement (visit a e') (P, W) = Some (P', W') ->
  W' !! (f_id a, e, n) = W !! (f_id a, e, n).
Proof.
  intros Hne (Hto & Hfrom & Hdata). unfold visit.
  cbn [steps step]. cbn [fst snd inEntity mbind option_bind].
  rewrite steps_app, <- map_map.
  set (P1 := mkProjector T (to P) (from P) (mesh P)
               (Live (createMeshElement (mesh P) e'))
               (Live (createElement W (from P) (createMeshElement (mesh P) e'))) (data P)).
  destruct (steps indetV createElement
              (map AtNode (map Z.of_nat (seq 0 (Z.to_nat (countNodesOn a e'))))) (P1, W))
    as [[P2 W2]|] eqn:Hloop; cbn; [|discriminate].
  destruct (outEntity P2); cbn; [|discriminate].
  intros Heq. inversion Heq; subst W'.
  rewrite <- Hto.
  assert (Hfe : el_getEntity (createElement W (from P) (createMeshElement (mesh P) e')) <> e).
  { rewrite elements_report_their_entity. exact Hne. }
  exact (atNode_calls_elsewhere _ P1 W P2 W2 _ _ n eq_refl eq_refl Hne Hfe Hloop).
Qed.

Lemma visit_zero_fills P W P' W' n :
  ready P -> (0 <= n < countNodesOn a e)%Z ->
  steps indetV createElement (visit a e) (P, W) = Some (P', W') ->
  W' !! (f_id a, e, n) = Some zeros.
Proof.
  intros (Hto & Hfrom & Hdata) Hn. unfold visit.
  cbn [steps step]. cbn [fst snd inEntity mbind option_bind].
  rewrite steps_app, <- map_map.
  set (P1 := mkProjector T (to P) (from P) (mesh P)
               (Live (createMeshElement (mesh P) e))
               (Live (createElement W (from P) (createMeshElement (mesh P) e))) (data P)).
  destruct (steps indetV createElement
              (map AtNode (map Z.of_nat (seq 0 (Z.to_nat (countNodesOn a e))))) (P1, W))
    as [[P2 W2]|] eqn:Hloop; cbn; [|discriminate].
  destruct (outEntity P2); cbn; [|discriminate].
  intros Heq. inversion Heq; subst W'.
  refine (atNode_calls_zero_fill _ P1 W P2 W2 _ n (conj Hto (conj Hfrom Hdata))
            eq_refl eq_refl Hloop _).
  left. apply list_elem_of_fmap. exists (Z.to_nat n). split; [lia|].
  apply elem_of_seq. lia.
Qed.

Lemma traversal_zero_fills order n : forall P W P' W',
  ready P -> (0 <= n < countNodesOn a e)%Z ->
  steps indetV createElement (concat (map (visit a) order)) (P, W) = Some (P', W') ->
  (e ∈ order \/ W !! (f_id a, e, n) = Some zeros) ->
  W' !! (f_id a, e, n) = Some zeros.
Proof.
  induction order as [|e' order IH]; intros P W P' W' Hready Hn; cbn [map concat].
  - cbn. intros Heq [Hin | Hz]; [apply elem_of_nil in Hin; contradiction|]. inversion Heq; subst. exact Hz.
  - rewrite steps_app.
    destruct (steps indetV createElement (visit a e') (P, W)) as [[P1 W1]|] eqn:Hvisit;
      cbn; [|discriminate].
    intros Hrest Hcase.
    apply (IH _ _ _ _ (ready_kept _ _ _ _ _ Hvisit Hready) Hn Hrest).
    destruct (decide (e' = e)) as [-> | Hne].
    + right. eapply visit_zero_fills; eassumption.
    + rewrite (visit_elsewhere _ _ _ _ _ n Hne Hready Hvisit).
      destruct Hcase as [Hin | Hz]; [left | right; exact Hz].
      apply elem_of_cons in Hin. destruct Hin as [-> | Hin]; [contradiction | exact Hin].
Qed.

End WholeTraversal.

(** X13: a whole run zero-fills the entities the source has no nodes
    for.  When the framework's source elements report the entity they
    were built on, and the source declares no node on [e] or fewer
    than the destination, then after [run] over any order that visits
    [e], every destination node of [e] holds one 0 per component of the
    destination, whatever the other entities received. *)
Theorem run_zero_fills_where_source_lacks_nodes
    (a b : Field) (order : list MeshEntity) (e : MeshEntity) (n : Z)
    (W0 W : NodeData) (P : Projector T) :
  (forall W1 f m, el_getEntity (createElement W1 f m) = ve_getEntity m) ->
  run indetV createElement order (Projector_ctor indetR a b, W0) = Some (P, W) ->
  e ∈ order ->
  (countNodesOn b e = 0 \/ countNodesOn b e < countNodesOn a e)%Z ->
  (0 <= n < countNodesOn a e)%Z ->
  W !! (f_id a, e, n) = Some (replicate (Z.to_nat (countComponents a)) 0).
Proof.
  intros Hent Hrun Hin Hcond Hn. unfold run, apply in Hrun. cbn [fst to] in Hrun.
  eapply (traversal_zero_fills Hent a b e Hcond order n); [ | exact Hn | exact Hrun | left; exact Hin].
  repeat split. apply Projector_ctor_data.
Qed.

End ProjectorExtras.

Lemma hierarchic_destination_samples_at_origin_witness :
  atNode (T := R) (mkVector3 9 9 9) 0%Z Sample.inside_vertex ∅
  = Some (<[(0%nat, 103%Z, 0%Z) := [7%R] ]> ∅).
Proof.
  rewrite (hierarchic_destination_samples_at_origin (mkVector3 9 9 9) 0 vzero 0%Z
    Sample.inside_vertex ∅ (mkVectorElement 3%Z)
    (Sample.shifted ∅ Sample.source (mkVectorElement 3%Z))
    eq_refl eq_refl eq_refl sample_vertex_counts).
  unfold setNodeValue. do 2 f_equal.
Defined.

Lemma plain_elements_report_their_entity :
  forall W f m, el_getEntity (plain_elements W f m) = ve_getEntity m.
Proof. reflexivity. Qed.

Lemma edge_20_is_visited : (20%Z : MeshEntity) ∈ [3%Z; 20%Z].
Proof. apply elem_of_cons. right. apply elem_of_cons. left. reflexivity. Qed.

Lemma sample_edge_node : (0 <= 0 < countNodesOn Sample.dest 20)%Z.
Proof. vm_compute. split; [discriminate | reflexivity]. Qed.

Lemma run_zero_fills_where_source_lacks_nodes_witness :
  exists P W,
    run (T := R) vzero plain_elements [3%Z; 20%Z]
      (Projector_ctor 0 Sample.dest Sample.source, ∅) = Some (P, W) /\
    W !! (0%nat, 20%Z, 0%Z) = Some [0%R].
Proof.
  eexists. eexists. split; [reflexivity|].
  exact (run_zero_fills_where_source_lacks_nodes 0 vzero plain_elements
    Sample.dest Sample.source [3%Z; 20%Z] 20%Z 0%Z ∅ _ _
    plain_elements_report_their_entity eq_refl edge_20_is_visited
    (or_introl eq_refl) sample_edge_node).
Defined.

(** ** projectHierarchicField *)

Section ProjectExtras.
Variable indetR : R.
Variable indetV : Vector3.
Variable createElementS : NodeData -> Field -> VectorElement -> ElementOf R.
Variable createElementV : NodeData -> Field -> VectorElement -> ElementOf Vector3.
Variable createElementM : NodeData -> Field -> VectorElement -> ElementOf Matrix3x3.
Variable traversal : Field -> list MeshEntity.

Lemma finish_keeps_other_fields {T : Type} `{ValueKind T}
    (createElement : NodeData -> Field -> VectorElement -> ElementOf T)
    (order : list MeshEntity) (a b : Field) (W W' : NodeData) fid e n :
  data_left (finish (run indetV createElement order (Projector_ctor indetR a b, W)))
    = Some W' ->
  fid <> f_id a ->
  W' !! (fid, e, n) = W !! (fid, e, n).
Proof.
  unfold run, apply. cbn [fst to Projector_ctor].
  destruct (steps indetV createElement _ _) as [[P1 W1]|] eqn:Hrun; cbn; [|discriminate].
  intros Heq Hne. inversion Heq; subst W'.
  eapply steps_keep_other_fields; [exact Hrun | exact Hne].
Qed.

(** X10: however a call of [projectHierarchicField] ends, every slot of
    every field other than the destination holds what it held on
    entry; a source that is a field of its own is never written. *)
Theorem projection_writes_only_the_destination
    (to from : Field) (W W' : NodeData) (fid : nat) (e : MeshEntity) (n : Z) :
  data_left (projectHierarchicField indetR indetV createElementS createElementV
               createElementM traversal to from W) = Some W' ->
  fid <> f_id to ->
  W' !! (fid, e, n) = W !! (fid, e, n).
Proof.
  unfold projectHierarchicField.
  destruct (negb (getValueType to =? getValueType from)%Z).
  { cbn. intros Heq _. inversion Heq. reflexivity. }
  destruct (getValueType to =? SCALAR)%Z; [apply finish_keeps_other_fields|].
  destruct (getValueType to =? VECTOR)%Z; [apply finish_keeps_other_fields|].
  destruct (getValueType to =? MATRIX)%Z; [apply finish_keeps_other_fields|].
  cbn. intros Heq _. inversion Heq. reflexivity.
Qed.

End ProjectExtras.

Lemma projection_writes_only_the_destination_witness :
  exists W',
    data_left (projectHierarchicField 0 vzero plain_elements Sample.constantV
                 Sample.constantM (fun _ => [3%Z; 20%Z])
                 Sample.dest Sample.source (<[(1%nat, 3%Z, 0%Z) := [5%R] ]> ∅)) = Some W' /\
    W' !! (1%nat, 3%Z, 0%Z) = (<[(1%nat, 3%Z, 0%Z) := [5%R] ]> ∅ : NodeData) !! (1%nat, 3%Z, 0%Z).
Proof.
  eexists. split; [reflexivity|].
  exact (projection_writes_only_the_destination 0 vzero plain_elements Sample.constantV
    Sample.constantM (fun _ => [3%Z; 20%Z]) Sample.dest Sample.source
    (<[(1%nat, 3%Z, 0%Z) := [5%R] ]> ∅) _ 1%nat 3%Z 0%Z eq_refl (ltac:(discriminate))).
Defined.

(** ** The node distribution *)

Section DistributionExtras.
Local Open Scope R_scope.

(** X14: [hasNodesIn] and [countNodesOn] agree: for each of the eight
    entity types, the family reports nodes in the type's dimension
    exactly when it puts a node on entities of that type, and it never
    puts more than one. *)
Theorem hasNodesIn_agrees_with_countNodesOn (type : Z) :
  (0 <= type < TYPES)%Z ->
  Hierarchic_hasNodesIn (type_dimension type) = (0 <? Hierarchic_countNodesOn type)%Z /\
  (0 <= Hierarchic_countNodesOn type <= 1)%Z.
Proof.
  unfold TYPES. intros Hrange.
  assert (Hcases : (type = 0 \/ type = 1 \/ type = 2 \/ type = 3 \/ type = 4
                    \/ type = 5 \/ type = 6 \/ type = 7)%Z) by lia.
  destruct Hcases as [-> | [-> | [-> | [-> | [-> | [-> | [-> | ->] ] ] ] ] ] ];
    vm_compute; repeat split; discriminate.
Qed.

Lemma quad_is_a_type : (0 <= QUAD < TYPES)%Z.
Proof. vm_compute. split; [discriminate | reflexivity]. Qed.

Lemma hasNodesIn_agrees_with_countNodesOn_witness :
  Hierarchic_hasNodesIn (type_dimension QUAD) = (0 <? Hierarchic_countNodesOn QUAD)%Z.
Proof.
  exact (proj1 (hasNodesIn_agrees_with_countNodesOn QUAD quad_is_a_type)).
Defined.

End DistributionExtras.
